(** * Session accounting of the time-tracking bot

    A shallow embedding of [time_tracker.py] (class [TimeTracker]) and of the
    parts of [bot.py] that drive it: the two credit rules, the statuses, the
    commands [iniciar_tiempo], [pausar_tiempo], [sumar_minutos] and
    [restar_minutos], [check_time_milestone], the catch-up sweep
    [check_missing_milestones] and the paged list [TimesView].

    Modelling conventions.
    - In [TimeTracker] and [Bot] seconds and clock readings are exact
      rationals ([Q]): the Python code computes with floats obtained from
      [timedelta.total_seconds()], and arithmetic facts are stated up to
      [==]. [Binary64] keeps the session methods with the floats of the
      interpreter, for what depends on the rounding.
    - A [datetime] is its number of seconds since an arbitrary origin;
      [isoformat]/[fromisoformat] round-trip and are left out.
    - [self.data] is a dictionary keyed by [str(user_id)]; since [str] is
      injective on integers and [check_missing_milestones] converts back with
      [int], the keys are the integers themselves ([gmap Z]).
    - A method of the tracker is given one clock reading, the [now]
      argument, and so is a command or a sweep: the methods it calls all
      get the same reading. Where the readings a handler takes one after
      the other matter, the handlers named [_at] keep them apart.
    - [save_data] rewrites the whole file; the file content is a component
      of the tracker state, I/O failures are not modelled. *)

From Stdlib Require Import QArith Qround Lqa ZArith String List Floats.
From stdpp Require Import gmap strings pretty.

Local Open Scope Z_scope.
Local Open Scope Q_scope.

(** ** Numbers *)

(** [x < y] on floats, as a boolean. *)
Definition Qlt_bool (x y : Q) : bool := negb (Qle_bool y x).

(** Python's [a // b] on non-integers, as the integer it denotes. *)
Definition floordiv (a b : Q) : Z := Qfloor (a / b).

(** Python's [a % b] for a positive [b]. *)
Definition pymod (a b : Q) : Q := a - b * inject_Z (floordiv a b).

(** Python's [max(a, b)]: [b] when it is strictly larger, else [a]. *)
Definition pymax (a b : Q) : Q := if Qlt_bool a b then b else a.

(** Python's [int(x)]: truncation towards zero. *)
Definition int (x : Q) : Z :=
  if Qlt_bool x 0 then Qceiling x else Qfloor x.

(** ** A state monad for the stateful code *)

Definition State (S A : Type) : Type := S -> A * S.

Definition ret {S A} (a : A) : State S A := fun s => (a, s).

Definition bind {S A B} (c : State S A) (k : A -> State S B) : State S B :=
  fun s => let (a, s') := c s in k a s'.

Definition gets {S A} (f : S -> A) : State S A := fun s => (f s, s).

Definition modify {S} (f : S -> S) : State S unit := fun s => (tt, f s).

Definition exec {S A} (c : State S A) (s : S) : S := snd (c s).

Definition eval {S A} (c : State S A) (s : S) : A := fst (c s).

Notation "'let*' x ':=' c 'in' k" := (bind c (fun x => k))
  (at level 10, x name, c at level 100, k at level 200).
Notation "c ';;;' k" := (bind c (fun _ => k))
  (at level 100, k at level 200, right associativity).

(** [for x in l: body x] *)
Fixpoint for_each {S A} (l : list A) (body : A -> State S unit) : State S unit :=
  match l with
  | [] => ret tt
  | x :: l' => body x ;;; for_each l' body
  end.

(** ** time_tracker.py *)

Module TimeTracker.

(** An entry of the ['sessions'] history. *)
Record Session := {
  session_start : option Q;
  session_end : Q;
  session_duration : Q
}.

(** The dictionary stored per user.  The first eight keys are the ones
    [start_tracking] and [add_minutes] create; ['last_start'],
    ['pause_start'] and ['last_milestone_check'] are added and deleted
    later, hence optional. *)
Record UserData := {
  name : string;
  total_time : Q;
  sessions : list Session;
  is_active : bool;
  is_paused : bool;
  pause_count : Z;
  notified_milestones : list Z;
  milestone_completed : bool;
  last_start : option Q;
  pause_start : option Q;
  last_milestone_check : option Q
}.

Definition set_name (v : string) (r : UserData) : UserData :=
  {| name := v; total_time := total_time r; sessions := sessions r;
     is_active := is_active r; is_paused := is_paused r;
     pause_count := pause_count r;
     notified_milestones := notified_milestones r;
     milestone_completed := milestone_completed r;
     last_start := last_start r; pause_start := pause_start r;
     last_milestone_check := last_milestone_check r |}.

Definition set_total_time (v : Q) (r : UserData) : UserData :=
  {| name := name r; total_time := v; sessions := sessions r;
     is_active := is_active r; is_paused := is_paused r;
     pause_count := pause_count r;
     notified_milestones := notified_milestones r;
     milestone_completed := milestone_completed r;
     last_start := last_start r; pause_start := pause_start r;
     last_milestone_check := last_milestone_check r |}.

Definition set_sessions (v : list Session) (r : UserData) : UserData :=
  {| name := name r; total_time := total_time r; sessions := v;
     is_active := is_active r; is_paused := is_paused r;
     pause_count := pause_count r;
     notified_milestones := notified_milestones r;
     milestone_completed := milestone_completed r;
     last_start := last_start r; pause_start := pause_start r;
     last_milestone_check := last_milestone_check r |}.

Definition set_is_active (v : bool) (r : UserData) : UserData :=
  {| name := name r; total_time := total_time r; sessions := sessions r;
     is_active := v; is_paused := is_paused r;
     pause_count := pause_count r;
     notified_milestones := notified_milestones r;
     milestone_completed := milestone_completed r;
     last_start := last_start r; pause_start := pause_start r;
     last_milestone_check := last_milestone_check r |}.

Definition set_is_paused (v : bool) (r : UserData) : UserData :=
  {| name := name r; total_time := total_time r; sessions := sessions r;
     is_active := is_active r; is_paused := v;
     pause_count := pause_count r;
     notified_milestones := notified_milestones r;
     milestone_completed := milestone_completed r;
     last_start := last_start r; pause_start := pause_start r;
     last_milestone_check := last_milestone_check r |}.

Definition set_pause_count (v : Z) (r : UserData) : UserData :=
  {| name := name r; total_time := total_time r; sessions := sessions r;
     is_active := is_active r; is_paused := is_paused r;
     pause_count := v;
     notified_milestones := notified_milestones r;
     milestone_completed := milestone_completed r;
     last_start := last_start r; pause_start := pause_start r;
     last_milestone_check := last_milestone_check r |}.

Definition set_notified_milestones (v : list Z) (r : UserData) : UserData :=
  {| name := name r; total_time := total_time r; sessions := sessions r;
     is_active := is_active r; is_paused := is_paused r;
     pause_count := pause_count r;
     notified_milestones := v;
     milestone_completed := milestone_completed r;
     last_start := last_start r; pause_start := pause_start r;
     last_milestone_check := last_milestone_check r |}.

Definition set_milestone_completed (v : bool) (r : UserData) : UserData :=
  {| name := name r; total_time := total_time r; sessions := sessions r;
     is_active := is_active r; is_paused := is_paused r;
     pause_count := pause_count r;
     notified_milestones := notified_milestones r;
     milestone_completed := v;
     last_start := last_start r; pause_start := pause_start r;
     last_milestone_check := last_milestone_check r |}.

Definition set_last_start (v : option Q) (r : UserData) : UserData :=
  {| name := name r; total_time := total_time r; sessions := sessions r;
     is_active := is_active r; is_paused := is_paused r;
     pause_count := pause_count r;
     notified_milestones := notified_milestones r;
     milestone_completed := milestone_completed r;
     last_start := v; pause_start := pause_start r;
     last_milestone_check := last_milestone_check r |}.

Definition set_pause_start (v : option Q) (r : UserData) : UserData :=
  {| name := name r; total_time := total_time r; sessions := sessions r;
     is_active := is_active r; is_paused := is_paused r;
     pause_count := pause_count r;
     notified_milestones := notified_milestones r;
     milestone_completed := milestone_completed r;
     last_start := last_start r; pause_start := v;
     last_milestone_check := last_milestone_check r |}.

Definition set_last_milestone_check (v : option Q) (r : UserData) : UserData :=
  {| name := name r; total_time := total_time r; sessions := sessions r;
     is_active := is_active r; is_paused := is_paused r;
     pause_count := pause_count r;
     notified_milestones := notified_milestones r;
     milestone_completed := milestone_completed r;
     last_start := last_start r; pause_start := pause_start r;
     last_milestone_check := v |}.

(** The tracker object: [self.data], and what [self.data_file] holds. *)
Record t := {
  data : gmap Z UserData;
  data_file : gmap Z UserData
}.

(** [TimeTracker()] when no file exists yet. *)
Definition init : t := {| data := ∅; data_file := ∅ |}.

Definition save_data (self : t) : t :=
  {| data := data self; data_file := data self |}.

(** [self.data[user_id_str] = user_data], also the effect of assigning
    to the keys of the dictionary [self.data[user_id_str]] aliases. *)
Definition store (user_id : Z) (user_data : UserData) (self : t) : t :=
  {| data := <[user_id := user_data]> (data self);
     data_file := data_file self |}.

(** The record both [start_tracking] and [add_minutes] create. *)
Definition new_user (user_name : string) : UserData :=
  {| name := user_name; total_time := 0; sessions := [];
     is_active := false; is_paused := false; pause_count := 0%Z;
     notified_milestones := []; milestone_completed := false;
     last_start := None; pause_start := None;
     last_milestone_check := None |}.

Definition start_tracking (user_id : Z) (user_name : string) (now : Q)
  : State t bool := fun self =>
  let self :=
    match data self !! user_id with
    | None => store user_id (new_user user_name) self
    | Some _ => self
    end in
  let user_data := default (new_user user_name) (data self !! user_id) in
  if is_active user_data then (false, self)
  else if is_paused user_data then (false, self)
  else
    let user_data := set_is_active true user_data in
    let user_data := set_is_paused false user_data in
    let user_data := set_last_start (Some now) user_data in
    let user_data := set_name user_name user_data in
    (true, save_data (store user_id user_data self)).

(** The fold shared by [stop_tracking] and [pause_tracking]:
    [total_time += now - last_start] when ['last_start'] is there. *)
Definition fold_session (now : Q) (user_data : UserData) : UserData :=
  match last_start user_data with
  | Some session_start =>
      let session_time := now - session_start in
      set_total_time (total_time user_data + session_time) user_data
  | None => user_data
  end.

Definition stop_tracking (user_id : Z) (now : Q) : State t bool := fun self =>
  match data self !! user_id with
  | None => (false, self)
  | Some user_data =>
      if negb (is_active user_data) then (false, self)
      else
        let user_data := fold_session now user_data in
        let user_data := set_is_active false user_data in
        let user_data := set_is_paused false user_data in
        let session_record :=
          {| session_start := last_start user_data;
             session_end := now;
             session_duration :=
               match last_start user_data with
               | Some session_start => now - session_start
               | None => 0
               end |} in
        let user_data :=
          set_sessions (sessions user_data ++ [session_record]) user_data in
        (true, save_data (store user_id user_data self))
  end.

Definition pause_tracking (user_id : Z) (now : Q) : State t bool := fun self =>
  match data self !! user_id with
  | None => (false, self)
  | Some user_data =>
      if negb (is_active user_data) then (false, self)
      else
        let user_data := fold_session now user_data in
        let user_data := set_is_active false user_data in
        let user_data := set_is_paused true user_data in
        let user_data := set_pause_start (Some now) user_data in
        let user_data :=
          set_pause_count (pause_count user_data + 1)%Z user_data in
        (true, save_data (store user_id user_data self))
  end.

Definition resume_tracking (user_id : Z) (now : Q) : State t bool := fun self =>
  match data self !! user_id with
  | None => (false, self)
  | Some user_data =>
      if negb (is_paused user_data) then (false, self)
      else
        let user_data := set_is_active true user_data in
        let user_data := set_is_paused false user_data in
        let user_data := set_last_start (Some now) user_data in
        let user_data := set_pause_start None user_data in
        (true, save_data (store user_id user_data self))
  end.

Definition get_total_time (user_id : Z) (now : Q) : State t Q := fun self =>
  match data self !! user_id with
  | None => (0, self)
  | Some user_data =>
      let total_time := total_time user_data in
      match is_active user_data, last_start user_data with
      | true, Some session_start =>
          let current_session_time := now - session_start in
          (total_time + current_session_time, self)
      | _, _ => (total_time, self)
      end
  end.

Definition get_user_data (user_id : Z) : State t (option UserData) :=
  gets (fun self => data self !! user_id).

Definition reset_user_time (user_id : Z) : State t bool := fun self =>
  match data self !! user_id with
  | None => (false, self)
  | Some user_data =>
      let user_data := set_total_time 0 user_data in
      let user_data := set_is_active false user_data in
      let user_data := set_is_paused false user_data in
      let user_data := set_pause_count 0%Z user_data in
      let user_data := set_sessions [] user_data in
      let user_data := set_notified_milestones [] user_data in
      let user_data := set_milestone_completed false user_data in
      let user_data := set_last_start None user_data in
      let user_data := set_pause_start None user_data in
      (true, save_data (store user_id user_data self))
  end.

Definition cancel_user_tracking (user_id : Z) : State t bool := fun self =>
  match data self !! user_id with
  | None => (false, self)
  | Some _ =>
      (true, save_data {| data := delete user_id (data self);
                          data_file := data_file self |})
  end.

Definition add_minutes (user_id : Z) (user_name : string) (minutes : Z)
  : State t bool := fun self =>
  let self :=
    match data self !! user_id with
    | None => store user_id (new_user user_name) self
    | Some _ => self
    end in
  let user_data := default (new_user user_name) (data self !! user_id) in
  let user_data :=
    set_total_time (total_time user_data + inject_Z (minutes * 60)) user_data in
  let user_data := set_name user_name user_data in
  (true, save_data (store user_id user_data self)).

Definition subtract_minutes (user_id : Z) (minutes : Z) : State t bool :=
  fun self =>
  match data self !! user_id with
  | None => (false, self)
  | Some user_data =>
      let current_time := total_time user_data in
      let new_time := pymax 0 (current_time - inject_Z (minutes * 60)) in
      let user_data := set_total_time new_time user_data in
      (true, save_data (store user_id user_data self))
  end.

Definition get_pause_count (user_id : Z) : State t Z :=
  gets (fun self =>
    match data self !! user_id with
    | None => 0%Z
    | Some user_data => pause_count user_data
    end).

(** The stored [total_time] of a user, [0] when there is no record. *)
Definition banked_seconds (user_id : Z) (self : t) : Q :=
  match data self !! user_id with
  | Some user_data => total_time user_data
  | None => 0
  end.

Definition format_time_human (seconds : Q) : string :=
  if Qlt_bool seconds 0 then "0 Segundos"%string
  else
    let hours := floordiv seconds 3600 in
    let minutes := floordiv (pymod seconds 3600) 60 in
    let secs := int (pymod seconds 60) in
    let parts := [] in
    let parts :=
      if (0 <? hours)%Z
      then parts ++ [pretty hours +:+ " Hora" +:+
                     (if negb (hours =? 1)%Z then "s" else "")]
      else parts in
    let parts :=
      if (0 <? minutes)%Z
      then parts ++ [pretty minutes +:+ " Minuto" +:+
                     (if negb (minutes =? 1)%Z then "s" else "")]
      else parts in
    let parts :=
      if (0 <? secs)%Z || (match parts with [] => true | _ => false end)
      then parts ++ [pretty secs +:+ " Segundo" +:+
                     (if negb (secs =? 1)%Z then "s" else "")]
      else parts in
    String.concat ", " parts.

(** The remaining methods of the class. *)

Definition get_paused_duration (user_id : Z) (now : Q) : State t Q :=
  gets (fun self =>
    match data self !! user_id with
    | None => 0
    | Some user_data =>
        match is_paused user_data, pause_start user_data with
        | true, Some pause_start => now - pause_start
        | _, _ => 0
        end
    end).

(** [for user_id_str in keys: if self.reset_user_time(...): count += 1] *)
Definition reset_users (keys : list Z) : State t Z := fun self =>
  foldl (fun '(count, self) user_id =>
           let (reset, self) := reset_user_time user_id self in
           (if reset : bool then (count + 1)%Z else count, self))
        (0%Z, self) keys.

(** The keys are listed before the loop starts ([list(self.data.keys())]);
    their order is not part of the map. *)
Definition reset_all_user_times : State t Z := fun self =>
  reset_users (map_to_list (data self)).*1 self.

Definition clear_all_data : State t bool := fun self =>
  (true, save_data {| data := ∅; data_file := data_file self |}).

(** [stop_tracking] with its two clock readings kept apart: [now] is the
    reading the session is measured with, [end_time] the later one written
    as the ['end'] of the history entry. [stop_tracking] is this method
    when the clock does not move between the two. *)
Definition stop_tracking_at (user_id : Z) (now end_time : Q) : State t bool :=
  fun self =>
  match data self !! user_id with
  | None => (false, self)
  | Some user_data =>
      if negb (is_active user_data) then (false, self)
      else
        let user_data := fold_session now user_data in
        let user_data := set_is_active false user_data in
        let user_data := set_is_paused false user_data in
        let session_record :=
          {| session_start := last_start user_data;
             session_end := end_time;
             session_duration :=
               match last_start user_data with
               | Some session_start => now - session_start
               | None => 0
               end |} in
        let user_data :=
          set_sessions (sessions user_data ++ [session_record]) user_data in
        (true, save_data (store user_id user_data self))
  end.

End TimeTracker.

(** ** bot.py *)

Module Bot.

Import TimeTracker.

Definition calculate_credits (total_seconds : Q) (has_special_role : bool) : Z :=
  if Qlt_bool total_seconds 0 then 0%Z
  else
    let total_hours := total_seconds / 3600 in
    if Qle_bool 2 total_hours then 5%Z
    else if Qle_bool 1 total_hours then 3%Z
    else 0%Z.

(** What the bot reads from Discord: whether [bot.get_channel] finds each
    notification channel, and, per user id, whether the user is a guild
    member holding the unlimited-time role. *)
Record Env := {
  milestones_channel : bool;
  pauses_channel : bool;
  cancellations_channel : bool;
  has_unlimited_time_role : Z -> bool
}.

(** A [discord.Member], as far as the commands use it. *)
Record Member := {
  id : Z;
  display_name : string
}.

(** The messages of the modelled handlers, by content rather than text. *)
Inductive Message :=
  | PausedResponse
  | AutoCancelledResponse (pause_count : Z)
  | NoActiveTimeResponse
  | AutoCancellationNotification
      (user_name total_time : string) (cancelled_by : Z) (pause_count : Z)
  | PauseNotification
      (user_name total_time : string) (paused_by : Z)
      (session_time : string) (pause_count : Z)
  | MilestoneNotification (user_name : string) (hours : Z) (total_time : string).

(** The global [time_tracker], and the messages sent so far; each is
    recorded with the id of the user the handler was working on. *)
Record t := {
  time_tracker : TimeTracker.t;
  sent : list (Z * Message)
}.

Definition lift {A} (c : State TimeTracker.t A) : State t A := fun bot =>
  let (a, tracker) := c (time_tracker bot) in
  (a, {| time_tracker := tracker; sent := sent bot |}).

Definition send (user_id : Z) (message : Message) : State t unit :=
  modify (fun bot =>
    {| time_tracker := time_tracker bot;
       sent := sent bot ++ [(user_id, message)] |}).

(** [user_data[key] = value] on the dictionary that [get_user_data] or the
    items of [get_all_tracked_users] hand out: the copy is shallow, so
    the assignment lands in [time_tracker.data]. *)
Definition assign (user_id : Z) (f : UserData -> UserData) : State t unit :=
  lift (modify (fun self =>
    {| data := alter f user_id (data self); data_file := data_file self |})).

Definition save : State t unit := lift (modify save_data).

Definition send_auto_cancellation_notification (env : Env) (user_id : Z)
    (user_name total_time : string) (cancelled_by : Z) (pause_count : Z)
  : State t unit :=
  if cancellations_channel env
  then send user_id
         (AutoCancellationNotification user_name total_time cancelled_by pause_count)
  else ret tt.

Definition send_pause_notification (env : Env) (user_id : Z)
    (user_name : string) (total_time : Q) (paused_by : Z)
    (session_time : string) (pause_count : Z) : State t unit :=
  if pauses_channel env
  then
    let formatted_total_time := format_time_human total_time in
    send user_id
      (PauseNotification user_name formatted_total_time paused_by
         session_time pause_count)
  else ret tt.

Definition pausar_tiempo (env : Env) (interaction_user : Z) (usuario : Member)
    (now : Q) : State t unit :=
  let* user_data := lift (get_user_data (id usuario)) in
  let* total_time_before := lift (get_total_time (id usuario) now) in
  let* success := lift (pause_tracking (id usuario) now) in
  if success : bool then
    let* total_time_after := lift (get_total_time (id usuario) now) in
    let session_time := total_time_after - total_time_before in
    let* pause_count := lift (get_pause_count (id usuario)) in
    let formatted_total_time := format_time_human total_time_after in
    let formatted_session_time :=
      if Qlt_bool 0 session_time then format_time_human session_time
      else "0 Segundos"%string in
    if (3 <=? pause_count)%Z then
      lift (cancel_user_tracking (id usuario)) ;;;
      send (id usuario) (AutoCancelledResponse pause_count) ;;;
      send_auto_cancellation_notification env (id usuario)
        (display_name usuario) formatted_total_time interaction_user pause_count
    else
      send (id usuario) PausedResponse ;;;
      send_pause_notification env (id usuario) (display_name usuario)
        total_time_after interaction_user formatted_session_time pause_count
  else
    send (id usuario) NoActiveTimeResponse.

(** [for h in range(1, total_hours + 1)]: the thresholds not yet in
    [notified_milestones], each with its hour count. *)
Definition missing_milestones (total_hours : Z) (notified_milestones : list Z)
  : list (Z * Z) :=
  foldl (fun missing h =>
           let milestone := (h * 3600)%Z in
           if bool_decide (milestone ∈ notified_milestones) then missing
           else missing ++ [(milestone, h)])
        [] (seqZ 1 total_hours).

(** [for milestone, _ in missing_milestones: ... append(milestone)] *)
Definition mark_notified (missing : list (Z * Z)) (notified_milestones : list Z)
  : list Z :=
  foldl (fun notified '(milestone, _) =>
           if bool_decide (milestone ∈ notified) then notified
           else notified ++ [milestone])
        notified_milestones missing.

(** The body of the loop of [check_missing_milestones] for one user.  The
    record is read from the tracker: the items of the copy alias the
    stored dictionaries and the loop removes no key.  The branch that adds
    a missing ['notified_milestones'] key is not taken on records made by
    [new_user]. *)
Definition check_missing_milestones_user (env : Env) (now : Q) (user_id : Z)
  : State t unit :=
  let* data := lift (get_user_data user_id) in
  match data with
  | None => ret tt
  | Some data =>
      let user_name := name data in
      let* total_time := lift (get_total_time user_id now) in
      let has_unlimited_role := has_unlimited_time_role env user_id in
      let notified_milestones := notified_milestones data in
      let total_hours := floordiv total_time 3600 in
      let missing_milestones :=
        missing_milestones total_hours notified_milestones in
      match last missing_milestones with
      | None => ret tt
      | Some (milestone_to_notify, hours_to_notify) =>
          let notified_milestones :=
            mark_notified missing_milestones notified_milestones in
          assign user_id (set_notified_milestones notified_milestones) ;;;
          save ;;;
          (if (1 <=? hours_to_notify)%Z then
             lift (stop_tracking user_id now) ;;;
             if has_unlimited_role then
               let* user_data := lift (get_user_data user_id) in
               match user_data with
               | Some _ =>
                   assign user_id (set_milestone_completed true) ;;; save
               | None => ret tt
               end
             else ret tt
           else ret tt) ;;;
          (if milestones_channel env then
             let formatted_time := format_time_human total_time in
             send user_id
               (MilestoneNotification user_name hours_to_notify formatted_time)
           else ret tt) ;;;
          assign user_id (set_last_milestone_check (Some total_time)) ;;;
          save
      end
  end.

(** [self.data.copy().items()]; the iteration order of the dictionary is
    not part of the map, the results below hold for every order. *)
Definition get_all_tracked_users : State TimeTracker.t (list (Z * UserData)) :=
  gets (fun self => map_to_list (data self)).

Definition check_missing_milestones (env : Env) (now : Q) : State t unit :=
  let* tracked_users := lift get_all_tracked_users in
  for_each tracked_users
    (fun '(user_id, _) => check_missing_milestones_user env now user_id).

(** The proportional rule of the prefix commands; [member] is not read. *)
Definition calculate_credits_from_time (member : Member) (time_minutes : Z) : Z :=
  let max_time_minutes := (1 * 60)%Z in
  let credits_per_session := 3%Z in
  let effective_time := Z.min time_minutes max_time_minutes in
  if (0 <? effective_time)%Z then
    let credits :=
      int (inject_Z effective_time / inject_Z max_time_minutes
           * inject_Z credits_per_session) in
    Z.max 1 credits
  else 0%Z.

(** The state shown next to a user. *)
Inductive Status :=
  | Inactivo
  | Activo
  | Terminado
  | Pausado.

(** [total_hours >= limit] under the tier, or the completed flag. *)
Definition finished (data : UserData) (total_time : Q) (has_special_role : bool)
  : bool :=
  let total_hours := total_time / 3600 in
  milestone_completed data
  || (has_special_role && Qle_bool 4 total_hours)
  || (negb has_special_role && Qle_bool 2 total_hours).

(** The status of [ver_tiempos] and of [TimesView.get_embed]:
    [if is_active ... elif is_paused ...]. *)
Definition list_status (data : UserData) (total_time : Q)
    (has_special_role : bool) : Status :=
  if is_active data then Activo
  else if is_paused data then
    if finished data total_time has_special_role then Terminado else Pausado
  else Inactivo.

(** The status of [saber_tiempo] and [mi_tiempo]: the Paused test comes
    second and overwrites the first answer. *)
Definition detail_status (data : UserData) (total_time : Q)
    (has_special_role : bool) : Status :=
  let status := if is_active data then Activo else Inactivo in
  if is_paused data then
    if finished data total_time has_special_role then Terminado else Pausado
  else status.

(** The check run after [sumar_minutos] and, for every Running user, on
    every tick of [periodic_milestone_check]. *)
Definition check_time_milestone (env : Env) (now : Q) (user_id : Z)
    (user_name : string) : State t unit :=
  let* user_data := lift (get_user_data user_id) in
  match user_data with
  | None => ret tt
  | Some user_data =>
      let has_unlimited_role := has_unlimited_time_role env user_id in
      if negb (is_active user_data) then ret tt
      else
        match last_start user_data with
        | None => ret tt
        | Some session_start =>
            let session_time :=
              match is_paused user_data, pause_start user_data with
              | true, Some pause_start => pause_start - session_start
              | _, _ => now - session_start
              end in
            if Qlt_bool session_time 3600 then ret tt
            else
              let* total_time := lift (get_total_time user_id now) in
              let notified_milestones := notified_milestones user_data in
              let total_hours := floordiv total_time 3600 in
              let hour_milestone := (total_hours * 3600)%Z in
              let missing_milestones :=
                missing_milestones total_hours notified_milestones in
              match last missing_milestones with
              | Some (milestone_to_notify, hours_to_notify) =>
                  let notified_milestones :=
                    mark_notified missing_milestones notified_milestones in
                  assign user_id
                    (set_notified_milestones notified_milestones) ;;;
                  save ;;;
                  lift (stop_tracking user_id now) ;;;
                  if milestones_channel env then
                    let formatted_time := format_time_human total_time in
                    send user_id
                      (MilestoneNotification user_name hours_to_notify
                         formatted_time)
                  else ret tt
              | None =>
                  if bool_decide (hour_milestone ∈ notified_milestones)
                  then ret tt
                  else
                    assign user_id
                      (set_notified_milestones
                         (notified_milestones ++ [hour_milestone])) ;;;
                    save ;;;
                    (if negb has_unlimited_role then
                       lift (stop_tracking user_id now) ;;; ret tt
                     else
                       lift (stop_tracking user_id now) ;;;
                       let* user_data := lift (get_user_data user_id) in
                       match user_data with
                       | Some _ =>
                           assign user_id (set_milestone_completed true) ;;;
                           save
                       | None => ret tt
                       end) ;;;
                    if milestones_channel env then
                      let formatted_time := format_time_human total_time in
                      send user_id
                        (MilestoneNotification user_name total_hours
                           formatted_time)
                    else ret tt
              end
        end
  end.

(** *** The handlers with every clock reading of their own

    The clock readings a handler takes while it works on one user, in the
    order it takes them: [current_time] of [check_time_milestone], the one
    inside [get_total_time], and the two inside [stop_tracking].
    [check_time_milestone] and [check_missing_milestones_user] above are
    the handlers below when the four readings are the same. *)
Record Readings := {
  session_reading : Q;
  total_reading : Q;
  stop_reading : Q;
  end_reading : Q
}.

Definition check_time_milestone_at (env : Env) (clock : Readings)
    (user_id : Z) (user_name : string) : State t unit :=
  let* user_data := lift (get_user_data user_id) in
  match user_data with
  | None => ret tt
  | Some user_data =>
      let has_unlimited_role := has_unlimited_time_role env user_id in
      if negb (is_active user_data) then ret tt
      else
        match last_start user_data with
        | None => ret tt
        | Some session_start =>
            let session_time :=
              match is_paused user_data, pause_start user_data with
              | true, Some pause_start => pause_start - session_start
              | _, _ => session_reading clock - session_start
              end in
            if Qlt_bool session_time 3600 then ret tt
            else
              let* total_time :=
                lift (get_total_time user_id (total_reading clock)) in
              let notified_milestones := notified_milestones user_data in
              let total_hours := floordiv total_time 3600 in
              let hour_milestone := (total_hours * 3600)%Z in
              let missing_milestones :=
                missing_milestones total_hours notified_milestones in
              let stop :=
                lift (stop_tracking_at user_id (stop_reading clock)
                        (end_reading clock)) in
              match last missing_milestones with
              | Some (milestone_to_notify, hours_to_notify) =>
                  let notified_milestones :=
                    mark_notified missing_milestones notified_milestones in
                  assign user_id
                    (set_notified_milestones notified_milestones) ;;;
                  save ;;;
                  stop ;;;
                  if milestones_channel env then
                    let formatted_time := format_time_human total_time in
                    send user_id
                      (MilestoneNotification user_name hours_to_notify
                         formatted_time)
                  else ret tt
              | None =>
                  if bool_decide (hour_milestone ∈ notified_milestones)
                  then ret tt
                  else
                    assign user_id
                      (set_notified_milestones
                         (notified_milestones ++ [hour_milestone])) ;;;
                    save ;;;
                    (if negb has_unlimited_role then stop ;;; ret tt
                     else
                       stop ;;;
                       let* user_data := lift (get_user_data user_id) in
                       match user_data with
                       | Some _ =>
                           assign user_id (set_milestone_completed true) ;;;
                           save
                       | None => ret tt
                       end) ;;;
                    if milestones_channel env then
                      let formatted_time := format_time_human total_time in
                      send user_id
                        (MilestoneNotification user_name total_hours
                           formatted_time)
                    else ret tt
              end
        end
  end.

Definition check_missing_milestones_user_at (env : Env) (clock : Readings)
    (user_id : Z) : State t unit :=
  let* data := lift (get_user_data user_id) in
  match data with
  | None => ret tt
  | Some data =>
      let user_name := name data in
      let* total_time :=
        lift (get_total_time user_id (total_reading clock)) in
      let has_unlimited_role := has_unlimited_time_role env user_id in
      let notified_milestones := notified_milestones data in
      let total_hours := floordiv total_time 3600 in
      let missing_milestones :=
        missing_milestones total_hours notified_milestones in
      match last missing_milestones with
      | None => ret tt
      | Some (milestone_to_notify, hours_to_notify) =>
          let notified_milestones :=
            mark_notified missing_milestones notified_milestones in
          assign user_id (set_notified_milestones notified_milestones) ;;;
          save ;;;
          (if (1 <=? hours_to_notify)%Z then
             lift (stop_tracking_at user_id (stop_reading clock)
                     (end_reading clock)) ;;;
             if has_unlimited_role then
               let* user_data := lift (get_user_data user_id) in
               match user_data with
               | Some _ =>
                   assign user_id (set_milestone_completed true) ;;; save
               | None => ret tt
               end
             else ret tt
           else ret tt) ;;;
          (if milestones_channel env then
             let formatted_time := format_time_human total_time in
             send user_id
               (MilestoneNotification user_name hours_to_notify formatted_time)
           else ret tt) ;;;
          assign user_id (set_last_milestone_check (Some total_time)) ;;;
          save
      end
  end.


End Bot.

(** ** The commands of bot.py that validate before calling the tracker *)

Module Commands.

Import TimeTracker.

(** What a command answers with [interaction.response.send_message]; it
    is the result of the modelled command. *)
Inductive Response :=
  | BotsNotTracked
  | LimitReached (limit_hours : Z) (formatted_time : string)
  | HasPausedTime
  | Started
  | AlreadyActive
  | MustBePositive
  | Added (minutos : Z) (formatted_time : string)
  | AddFailed
  | Subtracted (minutos : Z) (formatted_time : string)
  | SubtractFailed.

(** [usuario_bot] is [usuario.bot]. *)
Definition iniciar_tiempo (env : Bot.Env) (usuario : Bot.Member)
    (usuario_bot : bool) (now : Q) : State Bot.t Response :=
  if usuario_bot then ret BotsNotTracked
  else
    let has_unlimited_role := Bot.has_unlimited_time_role env (Bot.id usuario) in
    let* total_time := Bot.lift (get_total_time (Bot.id usuario) now) in
    let total_hours := total_time / 3600 in
    let start :=
      let* user_data := Bot.lift (get_user_data (Bot.id usuario)) in
      if match user_data with
         | Some user_data => is_paused user_data
         | None => false
         end
      then ret HasPausedTime
      else
        let* success :=
          Bot.lift (start_tracking (Bot.id usuario)
                      (Bot.display_name usuario) now) in
        if success : bool then ret Started else ret AlreadyActive in
    if negb has_unlimited_role then
      if Qle_bool 1 total_hours
      then ret (LimitReached 1 (format_time_human total_time))
      else start
    else
      if Qle_bool 4 total_hours
      then ret (LimitReached 4 (format_time_human total_time))
      else start.

Definition sumar_minutos (env : Bot.Env) (usuario : Bot.Member) (minutos : Z)
    (now : Q) : State Bot.t Response :=
  if (minutos <=? 0)%Z then ret MustBePositive
  else
    let* success :=
      Bot.lift (add_minutes (Bot.id usuario) (Bot.display_name usuario)
                  minutos) in
    if success : bool then
      let* total_time := Bot.lift (get_total_time (Bot.id usuario) now) in
      let formatted_time := format_time_human total_time in
      Bot.check_time_milestone env now (Bot.id usuario)
        (Bot.display_name usuario) ;;;
      ret (Added minutos formatted_time)
    else ret AddFailed.

Definition restar_minutos (usuario : Bot.Member) (minutos : Z) (now : Q)
  : State Bot.t Response :=
  if (minutos <=? 0)%Z then ret MustBePositive
  else
    let* success := Bot.lift (subtract_minutes (Bot.id usuario) minutos) in
    if success : bool then
      let* total_time := Bot.lift (get_total_time (Bot.id usuario) now) in
      let formatted_time := format_time_human total_time in
      ret (Subtracted minutos formatted_time)
    else ret SubtractFailed.

End Commands.

(** ** The paged list of times

    [TimesView] (bot.py) pages a list of users that [ver_tiempos] has
    sorted; [PageModal] is its page chooser. The entries of the list are
    kept abstract, and so is the line an embed shows for each of them: an
    embed is modelled by the entries of its page and the numbers of its
    footer. An operation that raises gives [None]. *)

Module TimesView.

(** Python's [l[start:stop]]: a negative index counts from the end, and
    both indices are clamped to the list. *)
Definition slice_index (len i : Z) : Z :=
  if (i <? 0)%Z then Z.max 0 (len + i) else Z.min len i.

Definition slice {A} (l : list A) (start stop : Z) : list A :=
  let len := Z.of_nat (length l) in
  let lo := slice_index len start in
  let hi := slice_index len stop in
  take (Z.to_nat (hi - lo)) (drop (Z.to_nat lo) l).

Section View.

Context {A : Type}.

(** [children] holds the [disabled] flag of each button of the view, in
    the order of their declaration: previous_page, next_page,
    go_to_page. *)
Record t := {
  sorted_users : list A;
  max_per_page : Z;
  current_page : Z;
  total_pages : Z;
  children : list bool
}.

Definition set_current_page (v : Z) (self : t) : t :=
  {| sorted_users := sorted_users self; max_per_page := max_per_page self;
     current_page := v; total_pages := total_pages self;
     children := children self |}.

Definition set_children (v : list bool) (self : t) : t :=
  {| sorted_users := sorted_users self; max_per_page := max_per_page self;
     current_page := current_page self; total_pages := total_pages self;
     children := v |}.

Record Embed := {
  current_users : list A;
  footer_page : Z;
  footer_pages : Z;
  footer_total : Z
}.

(** [TimesView.__init__]; the division raises when [max_per_page] is 0.
    A view of at most one page loses its buttons ([clear_items]). *)
Definition init (sorted_users : list A) (max_per_page : Z) : option t :=
  if (max_per_page =? 0)%Z then None
  else
    let total_pages :=
      ((Z.of_nat (length sorted_users) + max_per_page - 1) / max_per_page)%Z in
    Some {| sorted_users := sorted_users; max_per_page := max_per_page;
            current_page := 0; total_pages := total_pages;
            children := if (total_pages <=? 1)%Z then []
                        else [false; false; false] |}.

Definition get_embed (self : t) : Embed :=
  let len := Z.of_nat (length (sorted_users self)) in
  let start_idx := (current_page self * max_per_page self)%Z in
  let end_idx := Z.min (start_idx + max_per_page self) len in
  {| current_users := slice (sorted_users self) start_idx end_idx;
     footer_page := current_page self + 1;
     footer_pages := total_pages self;
     footer_total := len |}.

(** [children[0]] and [children[1]] raise IndexError on a view without
    buttons. *)
Definition update_buttons (self : t) : option t :=
  match children self with
  | _ :: _ :: _ =>
      Some (set_children
              (<[1%nat := (total_pages self - 1 <=? current_page self)%Z]>
                 (<[0%nat := (current_page self =? 0)%Z]> (children self)))
              self)
  | _ => None
  end.

Definition previous_page (self : t) : option (Embed * t) :=
  let self :=
    if (0 <? current_page self)%Z
    then set_current_page (current_page self - 1) self else self in
  match update_buttons self with
  | Some self => Some (get_embed self, self)
  | None => None
  end.

Definition next_page (self : t) : option (Embed * t) :=
  let self :=
    if (current_page self <? total_pages self - 1)%Z
    then set_current_page (current_page self + 1) self else self in
  match update_buttons self with
  | Some self => Some (get_embed self, self)
  | None => None
  end.

(** What [PageModal.on_submit] answers. *)
Inductive Reply :=
  | Edited (embed : Embed)
  | InvalidPage (total_pages : Z)
  | InvalidNumber.

(** [PageModal.on_submit]; [page_number] is [None] when the text typed is
    not a number ([int] raises ValueError, which the method catches). *)
Definition on_submit (view : t) (page_number : option Z)
  : option (Reply * t) :=
  match page_number with
  | None => Some (InvalidNumber, view)
  | Some page =>
      if ((1 <=? page) && (page <=? total_pages view))%Z then
        let view := set_current_page (page - 1) view in
        match update_buttons view with
        | Some view => Some (Edited (get_embed view), view)
        | None => None
        end
      else Some (InvalidPage (total_pages view), view)
  end.

(** What a user does with the view. The two page buttons and an accepted
    page number edit the message; a refused page number leaves the embed
    on screen as it is. *)
Inductive Press :=
  | Previous
  | Next
  | GoTo (page_number : option Z).

Definition press (p : Press) (shown : Embed) (self : t)
  : option (Embed * t) :=
  match p with
  | Previous => previous_page self
  | Next => next_page self
  | GoTo page_number =>
      match on_submit self page_number with
      | Some (Edited embed, self) => Some (embed, self)
      | Some (_, self) => Some (shown, self)
      | None => None
      end
  end.

(** The embed on screen and the view after a sequence of presses, from the
    embed [shown] first. *)
Fixpoint presses (ps : list Press) (shown : Embed) (self : t)
  : option (Embed * t) :=
  match ps with
  | [] => Some (shown, self)
  | p :: ps =>
      match press p shown self with
      | Some (shown, self) => presses ps shown self
      | None => None
      end
  end.

End View.

Arguments t : clear implicits.
Arguments Embed : clear implicits.
Arguments Reply : clear implicits.

End TimesView.

(** ** Runs of the ledger *)

Module Ledger.

Import TimeTracker.

(** The mutators a caller can invoke on one user. *)
Inductive Op :=
  | Start (user_name : string)
  | Stop
  | Pause
  | Resume
  | AddMinutes (user_name : string) (minutes : Z)
  | SubtractMinutes (minutes : Z)
  | Reset
  | Cancel.

(** An invocation: the clock reading, the user and the operation. *)
Record Event := {
  at_time : Q;
  user : Z;
  op : Op
}.

Definition apply_op (now : Q) (user_id : Z) (o : Op) : State TimeTracker.t bool :=
  match o with
  | Start user_name => start_tracking user_id user_name now
  | Stop => stop_tracking user_id now
  | Pause => pause_tracking user_id now
  | Resume => resume_tracking user_id now
  | AddMinutes user_name minutes => add_minutes user_id user_name minutes
  | SubtractMinutes minutes => subtract_minutes user_id minutes
  | Reset => reset_user_time user_id
  | Cancel => cancel_user_tracking user_id
  end.

Definition step (self : TimeTracker.t) (ev : Event) : TimeTracker.t :=
  exec (apply_op (at_time ev) (user ev) (op ev)) self.

Definition run (evs : list Event) (self : TimeTracker.t) : TimeTracker.t :=
  foldl step self evs.

(** The states the ledger can be in: any run from a fresh tracker. *)
Definition reachable (self : TimeTracker.t) : Prop :=
  exists evs, self = run evs init.

(** The clock never runs backwards along the run, starting at [t0]. *)
Fixpoint clock_from (t0 : Q) (evs : list Event) : Prop :=
  match evs with
  | [] => True
  | ev :: evs' => t0 <= at_time ev /\ clock_from (at_time ev) evs'
  end.

(** The last clock reading of a run that starts at [t0]. *)
Definition clock_after (t0 : Q) (evs : list Event) : Q :=
  foldl (fun _ ev => at_time ev) t0 evs.

(** What the command layer guarantees: no negative [minutes] reaches
    [add_minutes]. *)
Definition add_nonneg (ev : Event) : Prop :=
  match op ev with
  | AddMinutes _ minutes => (0 <= minutes)%Z
  | _ => True
  end.

(** The operations through which [total_time] is meant to go down. *)
Definition lowers_total (o : Op) : bool :=
  match o with
  | Reset | SubtractMinutes _ => true
  | _ => false
  end.

Definition session_op (o : Op) : bool :=
  match o with
  | Start _ | Stop | Pause | Resume => true
  | _ => false
  end.

(** *** The intervals a user spends Running, in the spec's words

    Written from the specification's state machine (Idle, Running,
    Paused), independently of the tracker: a start opens an interval when
    Idle, a resume when Paused; a pause or a stop closes the open one;
    any other command is rejected and changes nothing. *)
Inductive Phase :=
  | Idle
  | Running (since : Q)
  | Paused.

Definition spec_step (ph : Phase) (now : Q) (o : Op) : Phase * list (Q * Q) :=
  match ph, o with
  | Idle, Start _ => (Running now, [])
  | Running since, Pause => (Paused, [(since, now)])
  | Running since, Stop => (Idle, [(since, now)])
  | Paused, Resume => (Running now, [])
  | _, _ => (ph, [])
  end.

Fixpoint spec_running_intervals (u : Z) (ph : Phase) (evs : list Event)
  : list (Q * Q) :=
  match evs with
  | [] => []
  | ev :: evs' =>
      if bool_decide (user ev = u) then
        let (ph', closed) := spec_step ph (at_time ev) (op ev) in
        closed ++ spec_running_intervals u ph' evs'
      else spec_running_intervals u ph evs'
  end.

Fixpoint spec_final_phase (u : Z) (ph : Phase) (evs : list Event) : Phase :=
  match evs with
  | [] => ph
  | ev :: evs' =>
      if bool_decide (user ev = u)
      then spec_final_phase u (fst (spec_step ph (at_time ev) (op ev))) evs'
      else spec_final_phase u ph evs'
  end.

Definition spec_total_duration (intervals : list (Q * Q)) : Q :=
  foldr (fun '(since, till) acc => (till - since) + acc) 0 intervals.

End Ledger.

(** ** Invariants of the stored records *)

Module Invariant.

Import TimeTracker.

(** The markers of a record agree with its flags, as far as the code keeps
    them: a Running record has its ['last_start'], ['pause_start'] is
    there exactly for a Paused record, and no record is both. *)
Definition markers_ok (r : UserData) : Prop :=
  (is_active r = true -> is_Some (last_start r)) /\
  (is_Some (pause_start r) <-> is_paused r = true) /\
  (is_active r = true -> is_paused r = false).

(** The stored total is not negative, and an open session did not start
    after the clock reading [clock]. *)
Definition banked_ok (clock : Q) (r : UserData) : Prop :=
  0 <= total_time r /\
  (forall since, last_start r = Some since -> since <= clock).

Definition all_records (P : UserData -> Prop) (self : TimeTracker.t) : Prop :=
  forall user_id r, data self !! user_id = Some r -> P r.

(** How a record of the tracker stands for a phase of the specification's
    state machine, [banked] being the time accounted so far. *)
Definition represents (ph : Ledger.Phase) (banked : Q) (o : option UserData)
  : Prop :=
  match o with
  | None => ph = Ledger.Idle /\ banked == 0
  | Some r =>
      total_time r == banked /\
      match ph with
      | Ledger.Idle => is_active r = false /\ is_paused r = false
      | Ledger.Running since =>
          is_active r = true /\ is_paused r = false /\
          last_start r = Some since
      | Ledger.Paused => is_active r = false /\ is_paused r = true
      end
  end.


End Invariant.

(** ** The session methods on the numbers of the interpreter

    [TimeTracker] computes with exact seconds. This module keeps the four
    session methods with the arithmetic Python performs: a [datetime] is
    a whole number of microseconds, [timedelta.total_seconds()] divides
    the microseconds of a difference by [10**6], and ['total_time']
    grows by binary64 additions. [stop_tracking] reads the clock twice,
    once for the session and once for the ['end'] of its history entry.
    The tracker is [self.data] alone; what is saved is in [TimeTracker]. *)

Module Binary64.

(** [int / int] rounds the exact quotient once. For a difference below
    2^53 microseconds (285 years) the conversion is exact and the binary64
    division is that quotient; larger differences are outside the model. *)
Definition total_seconds (microseconds : Z) : float :=
  let magnitude := PrimFloat.of_uint63 (Uint63.of_Z (Z.abs microseconds)) in
  PrimFloat.div
    (if (microseconds <? 0)%Z then PrimFloat.opp magnitude else magnitude)
    1000000%float.

Record Session := {
  session_start : option Z;
  session_end : Z;
  session_duration : float
}.

Record UserData := {
  name : string;
  total_time : float;
  sessions : list Session;
  is_active : bool;
  is_paused : bool;
  pause_count : Z;
  notified_milestones : list Z;
  milestone_completed : bool;
  last_start : option Z;
  pause_start : option Z
}.

Abbreviation t := (gmap Z UserData).

(** The integer [0] of a new record adds to a float as [0.0] does. *)
Definition new_user (user_name : string) : UserData :=
  {| name := user_name; total_time := 0%float; sessions := [];
     is_active := false; is_paused := false; pause_count := 0%Z;
     notified_milestones := []; milestone_completed := false;
     last_start := None; pause_start := None |}.

Definition start_tracking (user_id : Z) (user_name : string) (now : Z)
  : State t bool := fun self =>
  let self :=
    match self !! user_id with
    | None => <[user_id := new_user user_name]> self
    | Some _ => self
    end in
  let user_data := default (new_user user_name) (self !! user_id) in
  if is_active user_data then (false, self)
  else if is_paused user_data then (false, self)
  else
    (true,
     <[user_id :=
         {| name := user_name; total_time := total_time user_data;
            sessions := sessions user_data;
            is_active := true; is_paused := false;
            pause_count := pause_count user_data;
            notified_milestones := notified_milestones user_data;
            milestone_completed := milestone_completed user_data;
            last_start := Some now; pause_start := pause_start user_data |}]>
       self).

(** [user_data['total_time'] = user_data.get('total_time', 0) + session_time]
    when ['last_start'] is there. *)
Definition folded_total (now : Z) (user_data : UserData) : float :=
  match last_start user_data with
  | Some session_start =>
      let session_time := total_seconds (now - session_start) in
      PrimFloat.add (total_time user_data) session_time
  | None => total_time user_data
  end.

Definition stop_tracking (user_id : Z) (now end_time : Z) : State t bool :=
  fun self =>
  match self !! user_id with
  | None => (false, self)
  | Some user_data =>
      if negb (is_active user_data) then (false, self)
      else
        let session_record :=
          {| session_start := last_start user_data;
             session_end := end_time;
             session_duration :=
               match last_start user_data with
               | Some session_start => total_seconds (now - session_start)
               | None => 0%float
               end |} in
        (true,
         <[user_id :=
             {| name := name user_data;
                total_time := folded_total now user_data;
                sessions := sessions user_data ++ [session_record];
                is_active := false; is_paused := false;
                pause_count := pause_count user_data;
                notified_milestones := notified_milestones user_data;
                milestone_completed := milestone_completed user_data;
                last_start := last_start user_data;
                pause_start := pause_start user_data |}]> self)
  end.

(** [pause_tracking] reads the clock for the session and again for
    ['pause_start']. *)
Definition pause_tracking (user_id : Z) (now pause_time : Z) : State t bool :=
  fun self =>
  match self !! user_id with
  | None => (false, self)
  | Some user_data =>
      if negb (is_active user_data) then (false, self)
      else
        (true,
         <[user_id :=
             {| name := name user_data;
                total_time := folded_total now user_data;
                sessions := sessions user_data;
                is_active := false; is_paused := true;
                pause_count := (pause_count user_data + 1)%Z;
                notified_milestones := notified_milestones user_data;
                milestone_completed := milestone_completed user_data;
                last_start := last_start user_data;
                pause_start := Some pause_time |}]> self)
  end.

Definition resume_tracking (user_id : Z) (now : Z) : State t bool :=
  fun self =>
  match self !! user_id with
  | None => (false, self)
  | Some user_data =>
      if negb (is_paused user_data) then (false, self)
      else
        (true,
         <[user_id :=
             {| name := name user_data; total_time := total_time user_data;
                sessions := sessions user_data;
                is_active := true; is_paused := false;
                pause_count := pause_count user_data;
                notified_milestones := notified_milestones user_data;
                milestone_completed := milestone_completed user_data;
                last_start := Some now; pause_start := None |}]> self)
  end.

Definition banked_seconds (user_id : Z) (self : t) : float :=
  match self !! user_id with
  | Some user_data => total_time user_data
  | None => 0%float
  end.

(** The session commands; [Stop] and [Pause] carry the second clock
    reading of their method. *)
Inductive Op :=
  | Start (user_name : string)
  | Stop (end_time : Z)
  | Pause (pause_time : Z)
  | Resume.

Record Event := {
  at_time : Z;
  user : Z;
  op : Op
}.

Definition apply_op (now : Z) (user_id : Z) (o : Op) : State t bool :=
  match o with
  | Start user_name => start_tracking user_id user_name now
  | Stop end_time => stop_tracking user_id now end_time
  | Pause pause_time => pause_tracking user_id now pause_time
  | Resume => resume_tracking user_id now
  end.

Definition step (self : t) (ev : Event) : t :=
  exec (apply_op (at_time ev) (user ev) (op ev)) self.

Definition run (evs : list Event) (self : t) : t := foldl step self evs.

(** *** The Running intervals, in the spec's words

    The specification's state machine as in [Ledger], on microseconds. *)
Inductive Phase :=
  | Idle
  | Running (since : Z)
  | Paused.

Definition spec_step (ph : Phase) (now : Z) (o : Op) : Phase * list (Z * Z) :=
  match ph, o with
  | Idle, Start _ => (Running now, [])
  | Running since, Pause _ => (Paused, [(since, now)])
  | Running since, Stop _ => (Idle, [(since, now)])
  | Paused, Resume => (Running now, [])
  | _, _ => (ph, [])
  end.

Fixpoint spec_running_intervals (u : Z) (ph : Phase) (evs : list Event)
  : list (Z * Z) :=
  match evs with
  | [] => []
  | ev :: evs' =>
      if bool_decide (user ev = u) then
        let (ph', closed) := spec_step ph (at_time ev) (op ev) in
        closed ++ spec_running_intervals u ph' evs'
      else spec_running_intervals u ph evs'
  end.

Fixpoint spec_final_phase (u : Z) (ph : Phase) (evs : list Event) : Phase :=
  match evs with
  | [] => ph
  | ev :: evs' =>
      if bool_decide (user ev = u)
      then spec_final_phase u (fst (spec_step ph (at_time ev) (op ev))) evs'
      else spec_final_phase u ph evs'
  end.

(** The durations of the intervals added onto [banked] one after the
    other, each rounded as [total_seconds] rounds it. *)
Definition accumulate (banked : float) (intervals : list (Z * Z)) : float :=
  foldl (fun banked '(since, till) =>
           PrimFloat.add banked (total_seconds (till - since)))
        banked intervals.

(** The exact length of the intervals, in microseconds. *)
Definition exact_microseconds (intervals : list (Z * Z)) : Z :=
  foldr (fun '(since, till) acc => (till - since + acc)%Z) 0%Z intervals.

(** How a record stands for a phase, [banked] being the time accounted
    so far. *)
Definition represents (ph : Phase) (banked : float) (o : option UserData)
  : Prop :=
  match o with
  | None => ph = Idle /\ banked = 0%float
  | Some r =>
      total_time r = banked /\
      match ph with
      | Idle => is_active r = false /\ is_paused r = false
      | Running since =>
          is_active r = true /\ is_paused r = false /\
          last_start r = Some since
      | Paused => is_active r = false /\ is_paused r = true
      end
  end.

(** Pauses at 2048.2 s and 0.2 s into a session, and a stop 1551.6 s into
    the last one: one hour of Running time in all. *)
Definition one_hour_in_three : list Event :=
  [ {| at_time := 0; user := 7; op := Start "ana" |};
    {| at_time := 2048200000; user := 7; op := Pause 2048200000 |};
    {| at_time := 3000000000; user := 7; op := Resume |};
    {| at_time := 3000200000; user := 7; op := Pause 3000200000 |};
    {| at_time := 4000000000; user := 7; op := Resume |};
    {| at_time := 5551600000; user := 7; op := Stop 5551600000 |} ]%Z.

End Binary64.

(** ** Further invariants *)

Module Extra.

Import TimeTracker.

(** A history entry written by a stop that found its ['last_start'], no
    later than the stop. *)
Definition closed_session (s : Session) : Prop :=
  is_Some (session_start s) /\ 0 <= session_duration s.

(** A Running record has its ['last_start'], no ['last_start'] is later
    than the clock reading [clock], and the history is made of closed
    sessions. *)
Definition history_ok (clock : Q) (r : UserData) : Prop :=
  (is_active r = true -> is_Some (last_start r)) /\
  (forall since, last_start r = Some since -> since <= clock) /\
  Forall closed_session (sessions r).

(** What [get_total_time] computes from a record. *)
Definition derived_total (now : Q) (r : UserData) : Q :=
  match is_active r, last_start r with
  | true, Some session_start => total_time r + (now - session_start)
  | _, _ => total_time r
  end.

(** No whole-hour threshold of the record's total is left unnotified. *)
Definition settled (now : Q) (r : UserData) : Prop :=
  Bot.missing_milestones (floordiv (derived_total now r) 3600)
    (notified_milestones r) = [].

(** The state of a view that [ver_tiempos] has opened on [users]: a page
    that exists, three buttons, and no button disabled that would still
    move. *)
Definition on_a_page {A} (users : list A) (per_page total : Z)
    (self : TimesView.t A) : Prop :=
  TimesView.sorted_users self = users /\
  TimesView.max_per_page self = per_page /\
  TimesView.total_pages self = total /\
  (0 <= TimesView.current_page self < total)%Z /\
  exists previous next go_to,
    TimesView.children self = [previous; next; go_to] /\
    (previous = true -> TimesView.current_page self = 0%Z) /\
    (next = true -> TimesView.current_page self = (total - 1)%Z).

End Extra.

(** ** Concrete runs used as test inputs *)

Module Scenario.

Import TimeTracker.

Definition ana : Bot.Member := {| Bot.id := 7; Bot.display_name := "ana" |}.

(** Every notification channel is found; nobody holds the special role. *)
Definition env : Bot.Env :=
  {| Bot.milestones_channel := true;
     Bot.pauses_channel := true;
     Bot.cancellations_channel := true;
     Bot.has_unlimited_time_role := fun _ => false |}.

Definition at_ (now : Q) (o : Ledger.Op) : Ledger.Event :=
  {| Ledger.at_time := now; Ledger.user := 7; Ledger.op := o |}.

(** Started at 0, paused and resumed twice: Running since 4 with two
    seconds banked and [pause_count = 2]. *)
Definition two_pauses : list Ledger.Event :=
  [at_ 0 (Ledger.Start "ana"); at_ 1 Ledger.Pause; at_ 2 Ledger.Resume;
   at_ 3 Ledger.Pause; at_ 4 Ledger.Resume].

(** One session from 0 to 10. *)
Definition one_session : list Ledger.Event :=
  [at_ 0 (Ledger.Start "ana"); at_ 10 Ledger.Stop].

(** 125 minutes added by hand to a user never seen before. *)
Definition added_time : list Ledger.Event :=
  [at_ 0 (Ledger.AddMinutes "ana" 125)].

(** Started at 0, then 125 minutes added by hand: Running. *)
Definition running_with_added_time : list Ledger.Event :=
  [at_ 0 (Ledger.Start "ana"); at_ 1 (Ledger.AddMinutes "ana" 125)].

(** Started and paused at once, then 125 minutes added by hand. *)
Definition paused_with_added_time : list Ledger.Event :=
  [at_ 0 (Ledger.Start "ana"); at_ 0 Ledger.Pause;
   at_ 1 (Ledger.AddMinutes "ana" 125)].

Definition bot_of (self : TimeTracker.t) : Bot.t :=
  {| Bot.time_tracker := self; Bot.sent := [] |}.

End Scenario.

(** * Properties *)

Import TimeTracker Ledger Invariant.

(** ** Arithmetic on seconds *)

Lemma Qlt_bool_true (x y : Q) : Qlt_bool x y = true <-> x < y.
Proof.
  unfold Qlt_bool. rewrite negb_true_iff. split.
  - intros H. apply Qnot_le_lt. intros Hle.
    apply Qle_bool_iff in Hle. congruence.
  - intros H. destruct (Qle_bool y x) eqn:E; [|reflexivity].
    apply Qle_bool_iff in E. lra.
Qed.

Lemma Qlt_bool_false (x y : Q) : Qlt_bool x y = false <-> y <= x.
Proof.
  unfold Qlt_bool. rewrite negb_false_iff. apply Qle_bool_iff.
Qed.

Lemma Qle_bool_false (x y : Q) : Qle_bool x y = false <-> y < x.
Proof.
  split.
  - intros H. apply Qnot_le_lt. intros Hle.
    apply Qle_bool_iff in Hle. congruence.
  - intros H. destruct (Qle_bool x y) eqn:E; [|reflexivity].
    apply Qle_bool_iff in E. lra.
Qed.

Lemma hours_times_3600 (x : Q) : x == (x / 3600) * 3600.
Proof. field. Qed.

Lemma pymax_0_spec (x : Q) :
  0 <= pymax 0 x /\ (0 <= x -> pymax 0 x == x) /\ (x <= 0 -> pymax 0 x == 0).
Proof.
  unfold pymax. destruct (Qlt_bool 0 x) eqn:E.
  - apply Qlt_bool_true in E. repeat split; intros; lra.
  - apply Qlt_bool_false in E. repeat split; intros; lra.
Qed.

Lemma inject_Z_minutes (minutes : Z) :
  inject_Z (minutes * 60) == inject_Z minutes * 60.
Proof. rewrite inject_Z_mult. reflexivity. Qed.

Lemma minutes_seconds_nonneg (minutes : Z) :
  (0 <= minutes)%Z -> 0 <= inject_Z (minutes * 60).
Proof.
  intros H. change 0 with (inject_Z 0). rewrite <- Zle_Qle. lia.
Qed.


(** ** The state monad *)



(** ** Lookups after the tracker's own updates *)

Lemma data_save_data (self : TimeTracker.t) : data (save_data self) = data self.
Proof. reflexivity. Qed.

Lemma lookup_store_eq (user_id : Z) (r : UserData) (self : TimeTracker.t) :
  data (store user_id r self) !! user_id = Some r.
Proof. unfold store; simpl. apply lookup_insert_eq. Qed.

Lemma lookup_store_ne (user_id other : Z) (r : UserData) (self : TimeTracker.t) :
  user_id <> other ->
  data (store user_id r self) !! other = data self !! other.
Proof. intros Hne. unfold store; simpl. by apply lookup_insert_ne. Qed.

(** ** get_total_time *)

(** C7. [get_total_time] returns the stored total plus the elapsed time of
    the open session for a Running user, exactly the stored total for any
    other user with a record (a Paused one included), and 0 when there is
    no record; the tracker it leaves behind, file included, is the one it
    was given. *)
Theorem get_total_time_pure_read (user_id : Z) (now : Q) (self : TimeTracker.t) :
  exec (get_total_time user_id now) self = self /\
  (data self !! user_id = None -> eval (get_total_time user_id now) self = 0) /\
  (forall r since,
      data self !! user_id = Some r ->
      is_active r = true -> last_start r = Some since ->
      eval (get_total_time user_id now) self == total_time r + (now - since)) /\
  (forall r,
      data self !! user_id = Some r ->
      is_active r = false \/ last_start r = None ->
      eval (get_total_time user_id now) self = total_time r).
Proof.
  unfold exec, eval, get_total_time.
  repeat split.
  - destruct (data self !! user_id) as [r|]; [|reflexivity].
    destruct (is_active r), (last_start r); reflexivity.
  - intros ->. reflexivity.
  - intros r since -> -> ->. simpl. reflexivity.
  - intros r -> [Hidle | Hnone].
    + rewrite Hidle. reflexivity.
    + rewrite Hnone. destruct (is_active r); reflexivity.
Qed.

Lemma get_total_time_run (user_id : Z) (now : Q) (self : TimeTracker.t) :
  get_total_time user_id now self
    = (eval (get_total_time user_id now) self, self).
Proof.
  unfold eval, get_total_time.
  destruct (data self !! user_id) as [r|]; [|reflexivity].
  destruct (is_active r), (last_start r); reflexivity.
Qed.


(** ** calculate_credits *)

(** C8. For a non-negative number of seconds the credits are 0 below one
    hour, 3 from one hour up to two, 5 from two hours on, whatever the tier
    flag. *)
Theorem calculate_credits_steps (total_seconds : Q) (has_special_role : bool) :
  0 <= total_seconds ->
  (total_seconds < 3600 ->
   Bot.calculate_credits total_seconds has_special_role = 0%Z) /\
  (3600 <= total_seconds -> total_seconds < 7200 ->
   Bot.calculate_credits total_seconds has_special_role = 3%Z) /\
  (7200 <= total_seconds ->
   Bot.calculate_credits total_seconds has_special_role = 5%Z) /\
  Bot.calculate_credits total_seconds true =
  Bot.calculate_credits total_seconds false.
Proof.
  intros Hnonneg. unfold Bot.calculate_credits.
  pose proof (hours_times_3600 total_seconds) as Hh.
  assert (Qlt_bool total_seconds 0 = false) as -> by (by apply Qlt_bool_false).
  destruct (Qle_bool 2 (total_seconds / 3600)) eqn:E2;
    [apply Qle_bool_iff in E2 | apply Qle_bool_false in E2];
    (destruct (Qle_bool 1 (total_seconds / 3600)) eqn:E1;
     [apply Qle_bool_iff in E1 | apply Qle_bool_false in E1]);
    repeat split; intros; try reflexivity; exfalso; lra.
Qed.

Lemma calculate_credits_steps_witness :
  0 <= 5400 /\ Bot.calculate_credits 5400 true = 3%Z.
Proof.
  split; [lra|].
  apply (calculate_credits_steps 5400 true); lra.
Defined.

(** ** format_time_human *)


(** Counts other than 1 take the plural, zero units are left out. *)
Example format_time_human_plural :
  format_time_human 7322 = "2 Horas, 2 Minutos, 2 Segundos"%string /\
  format_time_human 7200 = "2 Horas"%string /\
  format_time_human 61 = "1 Minuto, 1 Segundo"%string.
Proof. repeat split; vm_compute; reflexivity. Qed.

(** ** start_tracking *)

(** C10. When [start_tracking] returns [False] the tracker is left as it
    was, in memory and on file: the record existed, was Running or Paused,
    and keeps every field, the display name included. *)
Theorem start_tracking_rejected_unchanged
    (user_id : Z) (user_name : string) (now : Q) (self self' : TimeTracker.t) :
  start_tracking user_id user_name now self = (false, self') ->
  self' = self /\
  exists r, data self !! user_id = Some r /\
            (is_active r = true \/ is_paused r = true).
Proof.
  unfold start_tracking. destruct (data self !! user_id) as [r|] eqn:Hr.
  - rewrite Hr. simpl.
    destruct (is_active r) eqn:Ha; [|destruct (is_paused r) eqn:Hp].
    + intros [= <-]. eauto.
    + intros [= <-]. eauto.
    + discriminate.
  - rewrite lookup_store_eq. simpl. discriminate.
Qed.

Lemma start_tracking_rejected_unchanged_witness :
  let self := exec (start_tracking 7 "ana" 0) init in
  start_tracking 7 "bea" 5 self = (false, self) /\
  self = self /\
  exists r, data self !! 7%Z = Some r /\
            (is_active r = true \/ is_paused r = true).
Proof.
  intros self.
  assert (start_tracking 7 "bea" 5 self = (false, self)) as H
    by (vm_compute; reflexivity).
  split; [exact H|].
  exact (start_tracking_rejected_unchanged 7 "bea" 5 self self H).
Defined.

(** ** add_minutes and subtract_minutes *)

Lemma banked_seconds_store (user_id : Z) (r : UserData) (self : TimeTracker.t) :
  banked_seconds user_id (save_data (store user_id r self)) = total_time r.
Proof.
  unfold banked_seconds. rewrite data_save_data, lookup_store_eq. reflexivity.
Qed.

(** C2, as the code has it. [add_minutes] adds [minutes * 60] to the stored
    total whatever the sign of [minutes], and [subtract_minutes] stores
    [max(0, total_time - minutes * 60)] whatever the sign: neither looks at
    the sign of its argument, and [subtract_minutes] never leaves the total
    below 0. *)
Theorem add_subtract_minutes_totals
    (user_id : Z) (user_name : string) (minutes : Z) (self : TimeTracker.t) :
  banked_seconds user_id (exec (add_minutes user_id user_name minutes) self)
    == banked_seconds user_id self + inject_Z minutes * 60 /\
  0 <= banked_seconds user_id (exec (subtract_minutes user_id minutes) self) /\
  (is_Some (data self !! user_id) ->
   let target := banked_seconds user_id self - inject_Z minutes * 60 in
   (0 <= target ->
    banked_seconds user_id (exec (subtract_minutes user_id minutes) self)
      == target) /\
   (target <= 0 ->
    banked_seconds user_id (exec (subtract_minutes user_id minutes) self)
      == 0)).
Proof.
  pose proof (inject_Z_minutes minutes) as Hm.
  repeat split.
  - unfold exec, add_minutes; simpl. rewrite banked_seconds_store.
    unfold banked_seconds.
    destruct (data self !! user_id) as [r|] eqn:Hr.
    + rewrite Hr. simpl. lra.
    + rewrite lookup_store_eq. simpl. lra.
  - unfold exec, subtract_minutes.
    destruct (data self !! user_id) as [r|] eqn:Hr; simpl.
    + rewrite banked_seconds_store. simpl. apply pymax_0_spec.
    + unfold banked_seconds. rewrite Hr. lra.
  - intros Htarget. destruct H as [r Hr].
    unfold exec, subtract_minutes. rewrite Hr. cbn [snd].
    rewrite banked_seconds_store. unfold banked_seconds in *.
    rewrite Hr in *. cbn [total_time set_total_time].
    destruct (pymax_0_spec (total_time r - inject_Z (minutes * 60)))
      as (_ & Hpos & _).
    rewrite Hpos; lra.
  - intros Htarget. destruct H as [r Hr].
    unfold exec, subtract_minutes. rewrite Hr. cbn [snd].
    rewrite banked_seconds_store. unfold banked_seconds in *.
    rewrite Hr in *. cbn [total_time set_total_time].
    destruct (pymax_0_spec (total_time r - inject_Z (minutes * 60)))
      as (_ & _ & Hneg).
    rewrite Hneg; lra.
Qed.

(** The ledger does not ignore a negative argument: from a total of 600
    seconds, [add_minutes] with -5 leaves 300 and [subtract_minutes] with
    -5 leaves 900. *)
Lemma negative_minutes_not_ignored :
  let self := exec (add_minutes 7 "ana" 10) init in
  (-5 <= 0)%Z /\
  banked_seconds 7 self == 600 /\
  ~ banked_seconds 7 (exec (add_minutes 7 "ana" (-5)) self)
    == banked_seconds 7 self /\
  ~ banked_seconds 7 (exec (subtract_minutes 7 (-5)) self)
    == banked_seconds 7 self.
Proof.
  vm_compute. repeat split; congruence.
Qed.

(** ** The third pause *)

Lemma pause_tracking_running
    (user_id : Z) (now : Q) (self : TimeTracker.t) (r : UserData) :
  data self !! user_id = Some r -> is_active r = true ->
  exists r',
    pause_tracking user_id now self
      = (true, save_data (store user_id r' self)) /\
    pause_count r' = (pause_count r + 1)%Z /\
    is_paused r' = true /\ is_active r' = false /\
    pause_start r' = Some now /\
    total_time r' = total_time (fold_session now r) /\
    name r' = name r.
Proof.
  intros Hr Hact. unfold pause_tracking. rewrite Hr, Hact. simpl.
  eexists. split; [reflexivity|].
  unfold fold_session. destruct (last_start r); simpl; repeat split.
Qed.

(** C1, as the code has it. On the pause that brings [pause_count] to 3,
    [pause_tracking] answers [True] like any other pause and leaves the
    record in place, Paused, with [pause_count = 3]; it is the command
    [pausar_tiempo] that then calls [cancel_user_tracking], which removes
    the record, and that sends the automatic-cancellation messages
    instead of the pause ones. *)
Theorem third_pause_cancelled_by_command
    (env : Bot.Env) (interaction_user : Z) (usuario : Bot.Member) (now : Q)
    (bot : Bot.t) (r : UserData) :
  data (Bot.time_tracker bot) !! Bot.id usuario = Some r ->
  is_active r = true ->
  pause_count r = 2%Z ->
  (eval (pause_tracking (Bot.id usuario) now) (Bot.time_tracker bot) = true /\
   exists r',
     data (exec (pause_tracking (Bot.id usuario) now) (Bot.time_tracker bot))
       !! Bot.id usuario = Some r' /\
     pause_count r' = 3%Z /\ is_paused r' = true) /\
  let bot' := exec (Bot.pausar_tiempo env interaction_user usuario now) bot in
  data (Bot.time_tracker bot') !! Bot.id usuario = None /\
  exists total_time,
    Bot.sent bot' =
    Bot.sent bot ++
      (Bot.id usuario, Bot.AutoCancelledResponse 3) ::
      (if Bot.cancellations_channel env
       then [(Bot.id usuario,
              Bot.AutoCancellationNotification
                (Bot.display_name usuario) total_time interaction_user 3)]
       else []).
Proof.
  intros Hr Hact Hcount.
  destruct (pause_tracking_running (Bot.id usuario) now (Bot.time_tracker bot) r
              Hr Hact) as (r' & Hpause & Hc & Hp & Ha & _).
  rewrite Hcount in Hc. change (2 + 1)%Z with 3%Z in Hc.
  split.
  - unfold eval, exec. rewrite Hpause. cbn [fst snd]. split; [reflexivity|].
    exists r'. rewrite data_save_data, lookup_store_eq. auto.
  - unfold exec, Bot.pausar_tiempo, bind, Bot.lift, get_user_data, gets.
    cbn beta iota.
    rewrite get_total_time_run. cbn beta iota. cbn [Bot.time_tracker Bot.sent].
    rewrite Hpause. cbn beta iota. cbn [Bot.time_tracker Bot.sent].
    rewrite get_total_time_run. cbn beta iota. cbn [Bot.time_tracker Bot.sent].
    unfold get_pause_count, gets. cbn beta iota.
    rewrite data_save_data, lookup_store_eq, Hc.
    change (3 <=? 3)%Z with true. cbn beta iota.
    unfold cancel_user_tracking.
    cbn [Bot.time_tracker Bot.sent].
    rewrite data_save_data, lookup_store_eq. cbn beta iota.
    unfold Bot.send_auto_cancellation_notification, Bot.send, modify, ret.
    cbn beta iota. cbn [Bot.time_tracker Bot.sent snd data save_data].
    destruct (Bot.cancellations_channel env);
      cbn beta iota; cbn [Bot.time_tracker Bot.sent snd data save_data].
    + split; [apply lookup_delete_eq|].
      eexists. rewrite <- app_assoc. reflexivity.
    + split; [apply lookup_delete_eq|].
      exists ""%string. reflexivity.
Qed.

Lemma third_pause_cancelled_by_command_witness :
  let self := Ledger.run Scenario.two_pauses init in
  let bot' :=
    exec (Bot.pausar_tiempo Scenario.env 99 Scenario.ana 10)
         (Scenario.bot_of self) in
  data (Bot.time_tracker bot') !! 7%Z = None.
Proof.
  intros self bot'.
  edestruct (third_pause_cancelled_by_command Scenario.env 99 Scenario.ana 10
               (Scenario.bot_of self)) as [_ [Hgone _]];
    [vm_compute; reflexivity | reflexivity | reflexivity | exact Hgone].
Defined.

(** On its own, the third [pause_tracking] keeps the record: it answers
    [True] and the user is still stored, Paused, with three pauses. *)
Lemma pause_tracking_third_pause_keeps_record :
  let self := Ledger.run Scenario.two_pauses init in
  banked_seconds 7 self == 2 /\
  get_pause_count 7 self = (2%Z, self) /\
  eval (pause_tracking 7 10) self = true /\
  data (exec (pause_tracking 7 10) self) !! 7%Z <> None /\
  eval (get_pause_count 7) (exec (pause_tracking 7 10) self) = 3%Z.
Proof.
  vm_compute. repeat split; congruence.
Qed.

(** ** Steps of the ledger *)

(** Splits a step of the ledger into the branches of the method it runs,
    leaving in each the tracker the branch returns. *)
Ltac method_branches self ev :=
  let r := fresh "r" in
  let Hr := fresh "Hr" in
  let Ha := fresh "Ha" in
  let Hp := fresh "Hp" in
  unfold step, exec, apply_op;
  destruct (op ev);
  unfold start_tracking, stop_tracking, pause_tracking, resume_tracking,
    add_minutes, subtract_minutes, reset_user_time, cancel_user_tracking;
  destruct (data self !! user ev) as [r|] eqn:Hr;
  rewrite ?Hr, ?lookup_store_eq;
  unfold default, id;
  cbn [from_option new_user is_active is_paused negb snd];
  try (destruct (is_active r) eqn:Ha);
  try (destruct (is_paused r) eqn:Hp);
  cbn [negb snd].

Lemma all_records_save_data (P : UserData -> Prop) self :
  all_records P self -> all_records P (save_data self).
Proof. intros Hall. exact Hall. Qed.

Lemma all_records_store (P : UserData -> Prop) user_id r self :
  all_records P self -> P r -> all_records P (store user_id r self).
Proof.
  intros Hall Hr other r'.
  unfold store; cbn [data]. rewrite lookup_insert.
  case_decide; [intros [= <-]; exact Hr | apply Hall].
Qed.

Lemma all_records_delete (P : UserData -> Prop) user_id self :
  all_records P self ->
  all_records P {| data := delete user_id (data self);
                   data_file := data_file self |}.
Proof.
  intros Hall other r'. cbn [data].
  rewrite lookup_delete. case_decide; [discriminate | apply Hall].
Qed.

Ltac records_after Hall :=
  repeat lazymatch goal with
    | |- all_records _ (save_data _) => apply all_records_save_data
    | |- all_records _ (store _ _ _) => apply all_records_store
    | |- all_records _ (Build_t (delete _ _) _) => apply all_records_delete
    | |- all_records _ _ => exact Hall
    end.

Lemma run_snoc evs ev self : run (evs ++ [ev]) self = step (run evs self) ev.
Proof. unfold run. rewrite foldl_app. reflexivity. Qed.

Lemma init_all_records (P : UserData -> Prop) : all_records P init.
Proof. intros user_id r. cbn. rewrite lookup_empty. discriminate. Qed.

Lemma step_other self ev other :
  user ev <> other -> data (step self ev) !! other = data self !! other.
Proof.
  intros Hne. method_branches self ev; try reflexivity;
    rewrite ?data_save_data; cbn [data];
    rewrite ?lookup_store_ne, ?lookup_delete_ne by exact Hne; reflexivity.
Qed.

(** ** Session markers *)

Lemma step_markers_ok self ev :
  all_records markers_ok self -> all_records markers_ok (step self ev).
Proof.
  intros Hall.
  method_branches self ev; records_after Hall.
  all: try (destruct (Hall _ _ Hr) as (Hstart & Hpause & Hexcl));
    unfold markers_ok, fold_session;
    try (destruct (last_start r) eqn:Hls);
    cbn;
    rewrite ?Ha, ?Hp in *.
  all: pose proof (@is_Some_None Q) as Hnone;
    intuition (eauto; congruence).
Qed.

Lemma step_last_start self ev user_id old new :
  data self !! user_id = Some old ->
  data (step self ev) !! user_id = Some new ->
  ((op ev = Stop \/ op ev = Pause) -> last_start new = last_start old) /\
  (is_Some (last_start old) -> last_start new = None ->
   user ev = user_id /\ op ev = Reset).
Proof.
  destruct (decide (user ev = user_id)) as [<-|Hne].
  - method_branches self ev; intros Hold; try discriminate Hold;
      injection Hold as <-;
      rewrite ?data_save_data, ?lookup_store_eq, ?Hr; cbn [data];
      rewrite ?lookup_delete_eq; intros Hnew; try discriminate Hnew;
      injection Hnew as <-; unfold fold_session;
      try (destruct (last_start r) eqn:Hls); cbn;
      (split; [intros [|]; congruence || reflexivity|]);
      intros [since Hsince]; intros; try congruence; auto.
  - rewrite (step_other self ev user_id Hne). intros -> [= <-].
    split; [reflexivity|]. intros [since ->]. discriminate.
Qed.

(** C4, as the code has it. In every state the ledger can reach, a Running
    record has its ['last_start'], ['pause_start'] is present exactly when
    the record is Paused, and no record is Running and Paused at once.
    [stop_tracking] and [pause_tracking] do not clear ['last_start']: they
    leave it as it was, and a record that has one and is still there
    after an operation has lost it only to a reset of that user. *)
Theorem reachable_markers (self : TimeTracker.t) (user_id : Z) (r : UserData) :
  reachable self ->
  data self !! user_id = Some r ->
  markers_ok r /\
  forall ev r',
    data (step self ev) !! user_id = Some r' ->
    ((op ev = Stop \/ op ev = Pause) -> last_start r' = last_start r) /\
    (is_Some (last_start r) -> last_start r' = None ->
     user ev = user_id /\ op ev = Reset).
Proof.
  intros Hreach Hr. split.
  - destruct Hreach as [evs ->]. revert user_id r Hr.
    change (all_records markers_ok (run evs init)).
    induction evs as [|ev evs IH] using rev_ind.
    + apply init_all_records.
    + rewrite run_snoc. apply step_markers_ok, IH.
  - intros ev r'. apply step_last_start. exact Hr.
Qed.

Lemma reachable_markers_witness :
  let self := run Scenario.two_pauses init in
  exists r r',
    data self !! 7%Z = Some r /\ markers_ok r /\
    data (step self (Scenario.at_ 10 Pause)) !! 7%Z = Some r' /\
    last_start r' = last_start r.
Proof.
  intros self.
  pose (r := default (new_user "ana") (data self !! 7%Z)).
  pose (r' := default (new_user "ana")
                (data (step self (Scenario.at_ 10 Pause)) !! 7%Z)).
  assert (reachable self) as Hreach
    by (exists Scenario.two_pauses; reflexivity).
  assert (data self !! 7%Z = Some r) as Hr by (vm_compute; reflexivity).
  assert (data (step self (Scenario.at_ 10 Pause)) !! 7%Z = Some r') as Hr'
    by (vm_compute; reflexivity).
  destruct (reachable_markers self 7 r Hreach Hr) as [Hok Hkeep].
  exists r, r'. split; [exact Hr|]. split; [exact Hok|]. split; [exact Hr'|].
  apply (Hkeep (Scenario.at_ 10 Pause) r' Hr'). right. reflexivity.
Defined.

(** After a start at 0 and a stop at 10 the user is Idle and ['last_start']
    is still on the record. *)
Lemma stop_keeps_last_start :
  let self := run Scenario.one_session init in
  reachable self /\
  exists r,
    data self !! 7%Z = Some r /\
    is_active r = false /\ is_paused r = false /\
    last_start r = Some 0 /\
    ~ (is_Some (last_start r) <-> is_active r = true).
Proof.
  intros self. split; [exists Scenario.one_session; reflexivity|].
  eexists. split; [vm_compute; reflexivity|].
  cbn. repeat split. intros [Hfwd _].
  discriminate Hfwd. eauto.
Qed.

(** ** The stored total never goes negative *)

Lemma banked_ok_later clock clock' r :
  clock <= clock' -> banked_ok clock r -> banked_ok clock' r.
Proof.
  intros Hle [Hnonneg Hstart]. split; [exact Hnonneg|].
  intros since Hsince. specialize (Hstart since Hsince). lra.
Qed.

Lemma step_banked_ok clock self ev :
  all_records (banked_ok clock) self ->
  clock <= at_time ev -> add_nonneg ev ->
  all_records (banked_ok (at_time ev)) (step self ev).
Proof.
  intros Hall0 Hclock Hadd.
  assert (all_records (banked_ok (at_time ev)) self) as Hall.
  { intros user_id r Hr. eapply banked_ok_later; [exact Hclock|].
    exact (Hall0 _ _ Hr). }
  clear Hall0. revert Hadd. unfold add_nonneg.
  method_branches self ev; intros Hadd; records_after Hall.
  all: try (destruct (Hall _ _ Hr) as (Hnonneg & Hstart));
    try (apply minutes_seconds_nonneg in Hadd);
    unfold banked_ok, fold_session;
    try (destruct (last_start r) as [since0|] eqn:Hls;
         [specialize (Hstart since0 eq_refl)|]);
    cbn.
  all: try (pose proof (pymax_0_spec (total_time r - inject_Z (minutes * 60)))
              as (Hmax & _)).
  all: split; [try lra | intros since Hsince].
  all: try rewrite Hls in Hsince; try discriminate Hsince.
  all: try (inversion Hsince; subst; lra).
Qed.

Lemma step_total_monotone clock self ev user_id old new :
  all_records (banked_ok clock) self ->
  clock <= at_time ev -> add_nonneg ev ->
  lowers_total (op ev) = false ->
  data self !! user_id = Some old ->
  data (step self ev) !! user_id = Some new ->
  total_time old <= total_time new.
Proof.
  intros Hall Hclock Hadd Hlow Hold.
  destruct (decide (user ev = user_id)) as [<-|Hne];
    [|rewrite step_other by exact Hne; rewrite Hold; intros [= <-]; lra].
  destruct (Hall _ _ Hold) as (Hnonneg & Hstart).
  revert Hadd Hlow. unfold add_nonneg.
  method_branches self ev; intros Hadd Hlow;
    try discriminate Hlow; try discriminate Hold.
  all: injection Hold as Heq; subst r.
  all: rewrite ?data_save_data, ?lookup_store_eq; cbn [data].
  all: rewrite ?lookup_delete_eq.
  all: intros Hnew; try discriminate Hnew.
  all: try (rewrite Hr in Hnew).
  all: inversion Hnew; subst.
  all: try (apply minutes_seconds_nonneg in Hadd).
  all: unfold fold_session;
    try (destruct (last_start old) as [since0|] eqn:Hls;
         [specialize (Hstart since0 eq_refl)|]);
    cbn; lra.
Qed.

Lemma clock_from_snoc t0 evs ev :
  clock_from t0 (evs ++ [ev]) <->
  clock_from t0 evs /\ clock_after t0 evs <= at_time ev.
Proof.
  revert t0. induction evs as [|e evs IH]; intros t0; cbn.
  - tauto.
  - rewrite IH. tauto.
Qed.

Lemma run_banked_ok evs : forall clock self,
  all_records (banked_ok clock) self ->
  clock_from clock evs -> Forall add_nonneg evs ->
  all_records (banked_ok (clock_after clock evs)) (run evs self).
Proof.
  induction evs as [|ev evs IH]; intros clock self Hall Hclock Hadd.
  - exact Hall.
  - destruct Hclock as [Hle Hclock]. inversion Hadd as [|? ? Hev Hrest]; subst.
    cbn. apply IH; [|exact Hclock|exact Hrest].
    apply (step_banked_ok clock); assumption.
Qed.

(** C3, as the code has it. Along every run of the ledger in which the
    clock does not run backwards and [add_minutes] is never given a
    negative argument (the commands reject them), every stored total is
    at least 0 after every step, and a step that is neither a reset nor
    a subtraction leaves no record with a smaller total than before. *)
Theorem total_time_nonneg_and_monotone
    (t0 : Q) (evs : list Event) (ev : Event) :
  clock_from t0 (evs ++ [ev]) ->
  Forall add_nonneg (evs ++ [ev]) ->
  let before := run evs init in
  let after := run (evs ++ [ev]) init in
  (forall user_id r, data after !! user_id = Some r -> 0 <= total_time r) /\
  (forall user_id old new,
      lowers_total (op ev) = false ->
      data before !! user_id = Some old ->
      data after !! user_id = Some new ->
      total_time old <= total_time new).
Proof.
  intros Hclock Hadd before after.
  pose proof (run_banked_ok _ t0 init (init_all_records _) Hclock Hadd)
    as Hafter.
  apply clock_from_snoc in Hclock as [Hclock Hlast].
  apply Forall_app in Hadd as [Hadd Hev].
  inversion Hev as [|? ? Hev' _]; subst.
  pose proof (run_banked_ok _ t0 init (init_all_records _) Hclock Hadd)
    as Hbefore.
  split.
  - intros user_id r Hr. exact (proj1 (Hafter _ _ Hr)).
  - intros user_id old new Hlow Hold Hnew.
    subst after. rewrite run_snoc in Hnew.
    exact (step_total_monotone _ _ _ _ _ _ Hbefore Hlast Hev' Hlow Hold Hnew).
Qed.

Lemma total_time_nonneg_and_monotone_witness :
  let ev := Scenario.at_ 10 Stop in
  let after := run (Scenario.two_pauses ++ [ev]) init in
  exists r, data after !! 7%Z = Some r /\ 0 <= total_time r.
Proof.
  intros ev after.
  destruct (total_time_nonneg_and_monotone 0 Scenario.two_pauses ev)
    as [Hnonneg _].
  - cbn. repeat split; lra.
  - repeat constructor.
  - eexists. split; [vm_compute; reflexivity|].
    apply (Hnonneg 7%Z). vm_compute. reflexivity.
Defined.

(** From a fresh tracker, [add_minutes] with -5 stores a total of -300. *)
Lemma add_minutes_negative_total :
  let self := run [Scenario.at_ 0 (AddMinutes "ana" (-5))] init in
  reachable self /\
  exists r, data self !! 7%Z = Some r /\ total_time r < 0.
Proof.
  intros self. split; [eexists; reflexivity|].
  eexists. split; [vm_compute; reflexivity|]. cbn. lra.
Qed.

(** ** Banked time is Running time *)

Lemma represents_banked ph banked banked' o :
  banked == banked' -> represents ph banked o -> represents ph banked' o.
Proof.
  intros Heq. unfold represents. destruct o as [r|].
  - intros [Htotal Hflags]. split; [lra | exact Hflags].
  - intros [Hph Hzero]. split; [exact Hph | lra].
Qed.

Lemma spec_total_duration_app l1 l2 :
  spec_total_duration (l1 ++ l2)
    == spec_total_duration l1 + spec_total_duration l2.
Proof.
  induction l1 as [|[since till] l1 IH].
  - change (spec_total_duration l2 == 0 + spec_total_duration l2). lra.
  - change (spec_total_duration (((since, till) :: l1) ++ l2))
      with ((till - since) + spec_total_duration (l1 ++ l2)).
    change (spec_total_duration ((since, till) :: l1))
      with ((till - since) + spec_total_duration l1).
    lra.
Qed.

Lemma step_represents ph banked self ev :
  session_op (op ev) = true ->
  represents ph banked (data self !! user ev) ->
  represents (spec_step ph (at_time ev) (op ev)).1
    (banked + spec_total_duration (spec_step ph (at_time ev) (op ev)).2)
    (data (step self ev) !! user ev).
Proof.
  intros Hsession. revert Hsession.
  method_branches self ev; intros Hsession Hrep; try discriminate Hsession.
  all: rewrite ?data_save_data, ?lookup_store_eq; rewrite ?Hr.
  all: unfold represents, fold_session in *.
  all: destruct ph as [|since|]; cbn in *; rewrite ?Ha, ?Hp in *.
  all: try (intuition (congruence || lra)).
  all: destruct Hrep as (Htotal & _ & _ & Hsince); rewrite Hsince; cbn;
    repeat split; lra.
Qed.

Lemma run_represents u evs : forall ph banked self,
  Forall (fun ev => session_op (op ev) = true) evs ->
  represents ph banked (data self !! u) ->
  represents (spec_final_phase u ph evs)
    (banked + spec_total_duration (spec_running_intervals u ph evs))
    (data (run evs self) !! u).
Proof.
  induction evs as [|ev evs IH]; intros ph banked self Hops Hrep.
  - cbn. eapply represents_banked; [|exact Hrep]. lra.
  - inversion Hops as [|? ? Hev Hrest]; subst.
    cbn [spec_final_phase spec_running_intervals].
    change (run (ev :: evs) self) with (run evs (step self ev)).
    case_bool_decide as Huser.
    + subst u.
      pose proof (step_represents ph banked self ev Hev Hrep) as Hstep.
      destruct (spec_step ph (at_time ev) (op ev)) as [ph' closed].
      cbn [fst snd] in *.
      eapply represents_banked; [|exact (IH _ _ _ Hrest Hstep)].
      rewrite spec_total_duration_app. lra.
    + apply IH; [exact Hrest|]. rewrite step_other by exact Huser. exact Hrep.
Qed.

Lemma spec_final_phase_snoc u ph evs ev :
  spec_final_phase u ph (evs ++ [ev])
  = spec_final_phase u (spec_final_phase u ph evs) [ev].
Proof.
  revert ph. induction evs as [|e evs IH]; intros ph; [reflexivity|].
  cbn [app spec_final_phase]. case_bool_decide; apply IH.
Qed.

(** With exact seconds: run any sequence of start, pause, resume and stop
    commands, on any users and at any clock readings, on a tracker that
    has no record of user [u], and end it with a stop of [u]. The total
    stored for [u] is the sum of the lengths of the intervals the
    specification's state machine has [u] Running, and no such interval
    is left open. *)
Lemma exact_total_after_stop
    (u : Z) (evs : list Event) (now : Q) (self : TimeTracker.t) :
  data self !! u = None ->
  Forall (fun ev => session_op (op ev) = true) evs ->
  let evs' := evs ++ [{| at_time := now; user := u; op := Stop |}] in
  banked_seconds u (run evs' self)
    == spec_total_duration (spec_running_intervals u Idle evs') /\
  (forall since, spec_final_phase u Idle evs' <> Running since).
Proof.
  intros Hnew Hops evs'.
  assert (Forall (fun ev => session_op (op ev) = true) evs') as Hops'.
  { apply Forall_app. split; [exact Hops|]. repeat constructor. }
  assert (represents Idle 0 (data self !! u)) as Hrep.
  { rewrite Hnew. cbn. split; [reflexivity | lra]. }
  pose proof (run_represents u evs' Idle 0 self Hops' Hrep) as Hrun.
  split.
  - unfold banked_seconds, represents in *.
    destruct (data (run evs' self) !! u) as [r|].
    + destruct Hrun as [Htotal _]. lra.
    + destruct Hrun as [_ Hzero]. lra.
  - intros since. subst evs'. rewrite spec_final_phase_snoc.
    cbn. rewrite bool_decide_eq_true_2 by reflexivity.
    destruct (spec_final_phase u Idle evs); cbn; discriminate.
Qed.

Example exact_total_after_stop_example :
  let evs := Scenario.two_pauses ++ [Scenario.at_ 10 Stop] in
  banked_seconds 7 (run evs init) == 8 /\
  spec_running_intervals 7 Idle evs = [(0, 1); (2, 3); (4, 10)].
Proof.
  intros evs. split; [|reflexivity].
  destruct (exact_total_after_stop 7 Scenario.two_pauses 10 init)
    as [Hbanked _].
  - reflexivity.
  - repeat constructor.
  - rewrite Hbanked. vm_compute. reflexivity.
Qed.

(** ** Banked time, as the interpreter adds it up *)

Lemma binary64_run_snoc evs ev self :
  Binary64.run (evs ++ [ev]) self = Binary64.step (Binary64.run evs self) ev.
Proof. unfold Binary64.run. rewrite foldl_app. reflexivity. Qed.

Ltac binary64_simplify r Hr :=
  repeat progress (
    rewrite ?Hr, ?lookup_insert_eq;
    try match goal with
      | E : Binary64.is_active r = _ |- _ => rewrite !E
      end;
    try match goal with
      | E : Binary64.is_paused r = _ |- _ => rewrite !E
      end;
    try match goal with
      | E : Binary64.last_start r = _ |- _ => rewrite !E
      end;
    unfold default, id, Binary64.folded_total;
    cbn [from_option negb snd fst foldl
         Binary64.new_user Binary64.spec_step Binary64.accumulate
         Binary64.name Binary64.total_time Binary64.sessions
         Binary64.is_active Binary64.is_paused Binary64.pause_count
         Binary64.notified_milestones Binary64.milestone_completed
         Binary64.last_start Binary64.pause_start]).

Lemma binary64_step_represents ph banked self ev :
  Binary64.represents ph banked (self !! Binary64.user ev) ->
  let (ph', closed) :=
    Binary64.spec_step ph (Binary64.at_time ev) (Binary64.op ev) in
  Binary64.represents ph' (Binary64.accumulate banked closed)
    (Binary64.step self ev !! Binary64.user ev).
Proof.
  unfold Binary64.step, exec, Binary64.apply_op, Binary64.represents.
  destruct (Binary64.op ev);
    unfold Binary64.start_tracking, Binary64.stop_tracking,
      Binary64.pause_tracking, Binary64.resume_tracking;
    destruct (self !! Binary64.user ev) as [r|] eqn:Hr;
    destruct ph as [|since|];
    intros H; decompose [and] H; clear H; try discriminate;
    binary64_simplify r Hr; subst; auto.
Qed.

Lemma binary64_step_other self ev u :
  Binary64.user ev <> u -> Binary64.step self ev !! u = self !! u.
Proof.
  intros Hne. unfold Binary64.step, exec, Binary64.apply_op.
  destruct (Binary64.op ev);
    unfold Binary64.start_tracking, Binary64.stop_tracking,
      Binary64.pause_tracking, Binary64.resume_tracking;
    destruct (self !! Binary64.user ev) as [r|] eqn:Hr;
    rewrite ?Hr, ?lookup_insert_eq; unfold default, id;
    cbn [from_option Binary64.new_user Binary64.is_active Binary64.is_paused
         negb snd];
    try (destruct (Binary64.is_active r));
    try (destruct (Binary64.is_paused r)); cbn [negb snd];
    rewrite ?lookup_insert_ne by exact Hne; reflexivity.
Qed.

Lemma binary64_run_represents u evs : forall ph banked self,
  Binary64.represents ph banked (self !! u) ->
  Binary64.represents (Binary64.spec_final_phase u ph evs)
    (Binary64.accumulate banked (Binary64.spec_running_intervals u ph evs))
    (Binary64.run evs self !! u).
Proof.
  induction evs as [|ev evs IH]; intros ph banked self Hrep; [exact Hrep|].
  cbn [Binary64.spec_final_phase Binary64.spec_running_intervals Binary64.run
       foldl].
  case_bool_decide as Hu.
  - subst u.
    pose proof (binary64_step_represents ph banked self ev Hrep) as Hstep.
    destruct (Binary64.spec_step ph (Binary64.at_time ev) (Binary64.op ev))
      as [ph' closed].
    cbn [fst]. unfold Binary64.accumulate. rewrite foldl_app.
    apply IH. exact Hstep.
  - apply IH. rewrite binary64_step_other by exact Hu. exact Hrep.
Qed.

Lemma binary64_final_phase_snoc u ph evs ev :
  Binary64.spec_final_phase u ph (evs ++ [ev])
  = Binary64.spec_final_phase u (Binary64.spec_final_phase u ph evs) [ev].
Proof.
  revert ph. induction evs as [|e evs IH]; intros ph; [reflexivity|].
  cbn [app Binary64.spec_final_phase]. case_bool_decide; apply IH.
Qed.

(** C5, as the code has it. Run any sequence of start, pause, resume and
    stop commands, on any users and at any clock readings, on a tracker
    that has no record of user [u], and end it with a stop of [u]. The
    total stored for [u] is what comes of adding onto 0, in binary64 and
    in the order in which they ended, the [total_seconds()] of each
    interval the specification's state machine has [u] Running; an
    interval spent Paused adds nothing, and no interval is left open. *)
Theorem banked_after_stop_accumulates
    (u : Z) (evs : list Binary64.Event) (now end_time : Z)
    (self : Binary64.t) :
  self !! u = None ->
  let evs' :=
    evs ++ [{| Binary64.at_time := now; Binary64.user := u;
               Binary64.op := Binary64.Stop end_time |}] in
  Binary64.banked_seconds u (Binary64.run evs' self)
    = Binary64.accumulate 0
        (Binary64.spec_running_intervals u Binary64.Idle evs') /\
  (forall since,
     Binary64.spec_final_phase u Binary64.Idle evs'
     <> Binary64.Running since).
Proof.
  intros Hnew evs'.
  assert (Binary64.represents Binary64.Idle 0 (self !! u)) as Hrep
    by (rewrite Hnew; split; reflexivity).
  pose proof (binary64_run_represents u evs' _ _ self Hrep) as Hrun.
  split.
  - unfold Binary64.banked_seconds, Binary64.represents in *.
    destruct (Binary64.run evs' self !! u) as [r|].
    + destruct Hrun as [Htotal _]. exact Htotal.
    + destruct Hrun as [_ Hzero]. symmetry. exact Hzero.
  - intros since. subst evs'. rewrite binary64_final_phase_snoc.
    cbn. rewrite bool_decide_eq_true_2 by reflexivity.
    destruct (Binary64.spec_final_phase u Binary64.Idle evs); cbn;
      discriminate.
Qed.

Lemma banked_after_stop_accumulates_witness :
  Binary64.banked_seconds 7 (Binary64.run Binary64.one_hour_in_three ∅)
  = Binary64.accumulate 0
      [(0, 2048200000); (3000000000, 3000200000); (4000000000, 5551600000)]%Z.
Proof.
  apply (banked_after_stop_accumulates 7
           (take 5 Binary64.one_hour_in_three) 5551600000 5551600000 ∅).
  reflexivity.
Defined.

(** Running for 2048.2, 0.2 and 1551.6 seconds is one hour of Running
    time, to the microsecond; the total stored after the stop is below
    3600 seconds. *)
Lemma banked_hour_falls_short :
  let intervals :=
    Binary64.spec_running_intervals 7 Binary64.Idle
      Binary64.one_hour_in_three in
  let exact := Binary64.exact_microseconds intervals in
  let banked :=
    Binary64.banked_seconds 7 (Binary64.run Binary64.one_hour_in_three ∅) in
  exact = (3600 * 1000000)%Z /\
  Binary64.total_seconds exact = 3600%float /\
  PrimFloat.ltb banked 3600 = true /\
  banked <> Binary64.total_seconds exact.
Proof.
  intros intervals exact banked.
  assert (PrimFloat.ltb banked 3600 = true) as Hlt
    by (vm_compute; reflexivity).
  split; [vm_compute; reflexivity|]. split; [vm_compute; reflexivity|].
  split; [exact Hlt|]. intros Heq. rewrite Heq in Hlt.
  vm_compute in Hlt. discriminate Hlt.
Qed.

(** ** The catch-up sweep *)











Lemma stop_tracking_record (u : Z) (now : Q) (self : TimeTracker.t) r :
  data self !! u = Some r ->
  exists r',
    data (exec (stop_tracking u now) self) !! u = Some r' /\
    is_active r' = false /\
    is_paused r' = (if is_active r then false else is_paused r) /\
    total_time r'
      = total_time (if is_active r then fold_session now r else r) /\
    notified_milestones r' = notified_milestones r /\
    name r' = name r.
Proof.
  intros Hr. unfold exec, stop_tracking. rewrite Hr.
  destruct (is_active r) eqn:Ha; cbn [negb snd].
  - rewrite data_save_data, lookup_store_eq. eexists. split; [reflexivity|].
    unfold fold_session. destruct (last_start r); cbn; repeat split.
  - exists r. rewrite Hr, Ha. repeat split.
Qed.



Section Sweep.

Variables (env : Bot.Env) (now : Q) (u : Z).

Let body : Z * UserData -> State Bot.t unit :=
  fun '(user_id, _) => Bot.check_missing_milestones_user env now user_id.



End Sweep.



(** A Running user is stopped by the sweep and the session is banked. *)
Example catch_up_stops_running_user :
  let self := run Scenario.running_with_added_time init in
  let bot' :=
    exec (Bot.check_missing_milestones Scenario.env 100)
         (Scenario.bot_of self) in
  Bot.sent bot' =
    [(7%Z, Bot.MilestoneNotification "ana" 2
             "2 Horas, 6 Minutos, 40 Segundos")] /\
  exists r',
    data (Bot.time_tracker bot') !! 7%Z = Some r' /\
    is_active r' = false /\ is_paused r' = false /\
    total_time r' = 7600 /\
    notified_milestones r' = [3600; 7200]%Z.
Proof.
  intros self bot'. split; [vm_compute; reflexivity|].
  eexists. split; [vm_compute; reflexivity|].
  cbn. repeat split.
Qed.


(** * Further properties of the code *)

Import Extra.

Lemma reachable_all_markers (self : TimeTracker.t) :
  reachable self -> all_records markers_ok self.
Proof.
  intros [evs ->]. induction evs as [|ev evs IH] using rev_ind.
  - apply init_all_records.
  - rewrite run_snoc. apply step_markers_ok, IH.
Qed.

(** ** Rejected operations and the file *)

(** X1. Whatever the operation, a [False] answer means that nothing was
    done: the tracker, in memory and on file, is the one it was. *)
Theorem rejected_operation_changes_nothing
    (now : Q) (user_id : Z) (o : Op) (self : TimeTracker.t) :
  eval (apply_op now user_id o) self = false ->
  exec (apply_op now user_id o) self = self.
Proof.
  unfold eval, exec, apply_op. destruct o;
    unfold start_tracking, stop_tracking, pause_tracking, resume_tracking,
      add_minutes, subtract_minutes, reset_user_time, cancel_user_tracking;
    destruct (data self !! user_id) as [r|] eqn:Hr;
    rewrite ?Hr, ?lookup_store_eq; unfold default, id;
    cbn [from_option new_user is_active is_paused negb fst snd];
    try (destruct (is_active r)); try (destruct (is_paused r));
    cbn [negb fst snd]; intros H; try discriminate H; reflexivity.
Qed.

Lemma rejected_operation_changes_nothing_witness :
  let self := run Scenario.two_pauses init in
  exec (apply_op 9 7 (Start "bea")) self = self.
Proof.
  intros self.
  apply (rejected_operation_changes_nothing 9 7 (Start "bea") self).
  vm_compute. reflexivity.
Defined.

Lemma step_file_in_sync self ev :
  data_file self = data self ->
  data_file (step self ev) = data (step self ev).
Proof.
  intros Hsync. method_branches self ev; try exact Hsync; reflexivity.
Qed.

(** X2. After any sequence of ledger operations on a fresh tracker the
    file holds exactly what the memory holds. *)
Theorem reachable_file_in_sync (self : TimeTracker.t) :
  reachable self -> data_file self = data self.
Proof.
  intros [evs ->]. induction evs as [|ev evs IH] using rev_ind.
  - reflexivity.
  - rewrite run_snoc. apply step_file_in_sync, IH.
Qed.

Lemma reachable_file_in_sync_witness :
  let self := run Scenario.two_pauses init in
  data_file self = data self.
Proof.
  intros self. apply (reachable_file_in_sync self).
  exists Scenario.two_pauses. reflexivity.
Defined.

(** ** cancel_user_tracking *)

(** X3. Cancelling answers whether there was a record, removes it and
    touches no other user; the user then counts for 0 seconds and 0
    pauses, and a later start succeeds on a brand-new record. *)
Theorem cancel_user_tracking_forgets
    (user_id : Z) (user_name : string) (now : Q) (self : TimeTracker.t) :
  let cancelled := exec (cancel_user_tracking user_id) self in
  eval (cancel_user_tracking user_id) self
    = bool_decide (is_Some (data self !! user_id)) /\
  data cancelled !! user_id = None /\
  (forall other, other <> user_id ->
     data cancelled !! other = data self !! other) /\
  eval (get_total_time user_id now) cancelled = 0 /\
  eval (get_pause_count user_id) cancelled = 0%Z /\
  eval (start_tracking user_id user_name now) cancelled = true /\
  data (exec (start_tracking user_id user_name now) cancelled) !! user_id
    = Some (set_name user_name
              (set_last_start (Some now)
                 (set_is_paused false
                    (set_is_active true (new_user user_name))))).
Proof.
  intros cancelled.
  assert (data cancelled !! user_id = None) as Hgone.
  { subst cancelled. unfold exec, cancel_user_tracking.
    destruct (data self !! user_id) eqn:Hr; cbn; [apply lookup_delete_eq|].
    exact Hr. }
  split; [|split; [exact Hgone|split; [|split; [|split; [|split]]]]].
  - unfold eval, cancel_user_tracking.
    destruct (data self !! user_id) eqn:Hr; cbn [fst]; symmetry.
    + apply bool_decide_eq_true_2; eauto.
    + apply bool_decide_eq_false_2. intros [? ?]; congruence.
  - intros other Hne. subst cancelled. unfold exec, cancel_user_tracking.
    destruct (data self !! user_id) eqn:Hr; cbn; [|reflexivity].
    apply lookup_delete_ne. congruence.
  - unfold eval, get_total_time. rewrite Hgone. reflexivity.
  - unfold eval, get_pause_count, gets. cbn. rewrite Hgone. reflexivity.
  - unfold eval, start_tracking. rewrite Hgone, lookup_store_eq. reflexivity.
  - unfold exec, start_tracking. rewrite Hgone, lookup_store_eq. cbn.
    apply lookup_insert_eq.
Qed.

(** ** reset_all_user_times *)

Lemma reset_user_time_other (user_id other : Z) (self : TimeTracker.t) :
  other <> user_id ->
  data (exec (reset_user_time user_id) self) !! other = data self !! other.
Proof.
  intros Hne.
  apply (step_other self {| at_time := 0; user := user_id; op := Reset |}).
  cbn. congruence.
Qed.

Lemma reset_user_time_local (user_id : Z) (self1 self2 : TimeTracker.t) :
  data self1 !! user_id = data self2 !! user_id ->
  data (exec (reset_user_time user_id) self1) !! user_id
  = data (exec (reset_user_time user_id) self2) !! user_id.
Proof.
  intros Hsame. unfold exec, reset_user_time. rewrite Hsame.
  destruct (data self2 !! user_id) as [r|] eqn:Hr; cbn [snd].
  - rewrite !data_save_data, !lookup_store_eq. reflexivity.
  - congruence.
Qed.

Lemma reset_user_time_presence (user_id other : Z) (self : TimeTracker.t) :
  is_Some (data (exec (reset_user_time user_id) self) !! other)
  <-> is_Some (data self !! other).
Proof.
  destruct (decide (other = user_id)) as [->|Hne];
    [|rewrite reset_user_time_other by exact Hne; reflexivity].
  unfold exec, reset_user_time.
  destruct (data self !! user_id) as [r|] eqn:Hr; cbn [snd].
  - rewrite data_save_data, lookup_store_eq. split; eauto.
  - rewrite Hr. reflexivity.
Qed.

Lemma reset_users_spec (keys : list Z) :
  NoDup keys ->
  forall (count : Z) (self : TimeTracker.t),
    let result :=
      foldl (fun '(count, self) user_id =>
               let (reset, self) := reset_user_time user_id self in
               (if reset : bool then (count + 1)%Z else count, self))
            (count, self) keys in
    result.1
      = (count + Z.of_nat
                   (length (filter (fun k => is_Some (data self !! k)) keys)))%Z
    /\
    forall v,
      data result.2 !! v =
        if decide (v ∈ keys)
        then data (exec (reset_user_time v) self) !! v
        else data self !! v.
Proof.
  induction 1 as [|k keys Hfresh Hnodup IH]; intros count self.
  - cbn. split; [lia|]. intros v. rewrite decide_False; [reflexivity|].
    apply not_elem_of_nil.
  - cbn [foldl].
    destruct (reset_user_time k self) as [reset self1] eqn:Hreset.
    assert (self1 = exec (reset_user_time k) self) as Hself1
      by (unfold exec; rewrite Hreset; reflexivity).
    assert (reset = bool_decide (is_Some (data self !! k))) as Hanswer.
    { revert Hreset. unfold reset_user_time.
      destruct (data self !! k) as [r|]; intros [= <- _]; symmetry.
      - apply bool_decide_eq_true_2. eauto.
      - apply bool_decide_eq_false_2. intros [? ?]; congruence. }
    destruct (IH (if reset then (count + 1)%Z else count) self1)
      as [Hcount Hdata].
    cbn zeta. split.
    + rewrite Hcount.
      rewrite (list_filter_iff (fun k0 => is_Some (data self1 !! k0))
                 (fun k0 => is_Some (data self !! k0)))
        by (intros x; subst self1; apply reset_user_time_presence).
      rewrite Hanswer. case_bool_decide as Hk.
      * rewrite filter_cons_True by exact Hk. cbn [length]. lia.
      * rewrite filter_cons_False by exact Hk. lia.
    + intros v. rewrite Hdata.
      destruct (decide (v = k)) as [->|Hne].
      * rewrite decide_False by exact Hfresh.
        rewrite decide_True by (apply elem_of_cons; auto).
        subst self1. reflexivity.
      * destruct (decide (v ∈ keys)) as [Hin|Hnotin].
        -- rewrite decide_True by (apply elem_of_cons; auto).
           apply reset_user_time_local. subst self1.
           apply reset_user_time_other. exact Hne.
        -- rewrite decide_False
             by (intros [?|?]%elem_of_cons; [congruence|contradiction]).
           subst self1. apply reset_user_time_other. exact Hne.
Qed.

Lemma filter_all {A} (P : A -> Prop) `{!forall x, Decision (P x)}
    (l : list A) :
  Forall P l -> filter P l = l.
Proof.
  induction 1 as [|x l Hx _ IH]; [reflexivity|].
  rewrite filter_cons_True by exact Hx. by rewrite IH.
Qed.

(** X4. [reset_all_user_times] returns the number of records, does to each
    user what [reset_user_time] does, and leaves every record at 0
    seconds, Idle, with no pause, history, milestone or marker. *)
Theorem reset_all_user_times_resets_everyone (self : TimeTracker.t) :
  eval reset_all_user_times self = Z.of_nat (size (data self)) /\
  (forall v,
     data (exec reset_all_user_times self) !! v
     = data (exec (reset_user_time v) self) !! v) /\
  (forall v r,
     data (exec reset_all_user_times self) !! v = Some r ->
     total_time r = 0 /\ is_active r = false /\ is_paused r = false /\
     pause_count r = 0%Z /\ sessions r = [] /\
     notified_milestones r = [] /\ milestone_completed r = false /\
     last_start r = None /\ pause_start r = None).
Proof.
  unfold eval, exec, reset_all_user_times, reset_users.
  destruct (reset_users_spec (map_to_list (data self)).*1
              (NoDup_fst_map_to_list _) 0%Z self) as [Hcount Hdata].
  cbn zeta in Hcount, Hdata.
  assert (forall v,
            data (foldl (fun '(count, self) user_id =>
                           let (reset, self) := reset_user_time user_id self in
                           (if reset : bool then (count + 1)%Z else count, self))
                        (0%Z, self) (map_to_list (data self)).*1).2 !! v
            = data (exec (reset_user_time v) self) !! v) as Hall.
  { intros v. rewrite Hdata. case_decide as Hin; [reflexivity|].
    destruct (data self !! v) as [r|] eqn:Hr.
    - exfalso. apply Hin. apply list_elem_of_fmap. exists (v, r).
      split; [reflexivity|]. apply elem_of_map_to_list. exact Hr.
    - unfold exec, reset_user_time. rewrite Hr. cbn. congruence. }
  split; [|split].
  - rewrite Hcount.
    rewrite filter_all, length_fmap, length_map_to_list; [lia|].
    apply Forall_forall. intros k [[k' r] [-> Hin]]%list_elem_of_fmap.
    apply elem_of_map_to_list in Hin. cbn. eauto.
  - exact Hall.
  - intros v r. rewrite Hall. unfold exec, reset_user_time.
    destruct (data self !! v) as [r0|] eqn:Hr0; cbn [snd].
    + rewrite data_save_data, lookup_store_eq. intros [= <-].
      cbn. repeat split.
    + rewrite Hr0. discriminate.
Qed.

(** ** get_paused_duration *)

(** X5. For a Running user, pause and then ask: the paused duration is the
    time since that pause; after the resume it is 0 again. *)
Theorem paused_duration_counts_from_the_pause
    (user_id : Z) (paused_at resumed_at now : Q) (self : TimeTracker.t)
    (r : UserData) :
  data self !! user_id = Some r ->
  is_active r = true ->
  let paused := exec (pause_tracking user_id paused_at) self in
  let resumed := exec (resume_tracking user_id resumed_at) paused in
  eval (get_paused_duration user_id now) self
    = (if is_paused r then
         match pause_start r with Some p => now - p | None => 0 end
       else 0) /\
  eval (get_paused_duration user_id now) paused = now - paused_at /\
  eval (get_paused_duration user_id now) resumed = 0.
Proof.
  intros Hr Ha paused resumed.
  destruct (pause_tracking_running user_id paused_at self r Hr Ha)
    as (r' & Hpause & _ & Hp' & Ha' & Hps' & _).
  assert (data paused !! user_id = Some r') as Hr'.
  { subst paused. unfold exec. rewrite Hpause. cbn [snd].
    rewrite data_save_data. apply lookup_store_eq. }
  split; [|split].
  - unfold eval, get_paused_duration, gets. cbn. rewrite Hr.
    destruct (is_paused r), (pause_start r); reflexivity.
  - unfold eval, get_paused_duration, gets. cbn. rewrite Hr', Hp', Hps'.
    reflexivity.
  - subst resumed. unfold exec, resume_tracking. rewrite Hr', Hp'. cbn [negb snd].
    unfold eval, get_paused_duration, gets. cbn [fst].
    rewrite data_save_data, lookup_store_eq. reflexivity.
Qed.

Lemma paused_duration_counts_from_the_pause_witness :
  let self := run Scenario.two_pauses init in
  eval (get_paused_duration 7 30) (exec (pause_tracking 7 10) self) = 30 - 10.
Proof.
  intros self.
  pose (r := default (new_user "ana") (data self !! 7%Z)).
  assert (data self !! 7%Z = Some r) as Hr by (vm_compute; reflexivity).
  assert (is_active r = true) as Ha by reflexivity.
  exact (proj1 (proj2 (paused_duration_counts_from_the_pause
                          7 10 20 30 self r Hr Ha))).
Defined.

(** ** The derived total *)

(** X6. A start, stop, pause or resume, accepted or not, does not change
    the total [get_total_time] reports for that instant: folding a
    session moves time from the open session to the stored total. *)
Theorem session_op_keeps_total_at_its_instant
    (self : TimeTracker.t) (ev : Event) :
  reachable self ->
  session_op (op ev) = true ->
  eval (get_total_time (user ev) (at_time ev)) (step self ev)
    == eval (get_total_time (user ev) (at_time ev)) self.
Proof.
  intros Hreach Hsession.
  pose proof (reachable_all_markers self Hreach (user ev)) as Hmarkers.
  revert Hsession.
  method_branches self ev; intros Hsession; try discriminate Hsession.
  all: try reflexivity.
  all: try (destruct (Hmarkers r eq_refl) as (Hstart & _ & Hexcl)).
  all: unfold eval, get_total_time;
    rewrite ?data_save_data, ?lookup_store_eq, ?Hr; unfold fold_session;
    cbn [is_active is_paused last_start total_time set_name set_last_start
         set_is_paused set_is_active set_sessions set_pause_start
         set_pause_count set_total_time new_user fst].
  all: rewrite ?Ha.
  all: try (destruct (last_start r) as [since|] eqn:Hls); cbn; try lra.
  all: specialize (Hexcl Ha); congruence.
Qed.

Lemma session_op_keeps_total_at_its_instant_witness :
  let self := run Scenario.two_pauses init in
  eval (get_total_time 7 10) (step self (Scenario.at_ 10 Pause))
    == eval (get_total_time 7 10) self.
Proof.
  intros self.
  apply (session_op_keeps_total_at_its_instant self (Scenario.at_ 10 Pause)).
  - exists Scenario.two_pauses. reflexivity.
  - reflexivity.
Defined.

(** X7. Along a run in which the clock does not run backwards and no
    negative minutes are added, the total [get_total_time] reports at a
    later reading is at least the stored total, which is at least 0; it
    does not go down when the clock advances, and for a user who is not
    Running it is the stored total whatever the clock says. *)
Theorem total_time_grows_with_the_clock
    (t0 : Q) (evs : list Event) (user_id : Z) (now1 now2 : Q) :
  clock_from t0 evs ->
  Forall add_nonneg evs ->
  clock_after t0 evs <= now1 ->
  now1 <= now2 ->
  let self := run evs init in
  0 <= banked_seconds user_id self /\
  banked_seconds user_id self <= eval (get_total_time user_id now1) self /\
  eval (get_total_time user_id now1) self
    <= eval (get_total_time user_id now2) self /\
  (forall r, data self !! user_id = Some r -> is_active r = false ->
     eval (get_total_time user_id now2) self = banked_seconds user_id self).
Proof.
  intros Hclock Hadd Hnow1 Hnow2 self.
  pose proof (run_banked_ok evs t0 init (init_all_records _) Hclock Hadd)
    as Hall.
  fold self in Hall. unfold banked_seconds, eval, get_total_time.
  destruct (data self !! user_id) as [r|] eqn:Hr; cbn [fst].
  - destruct (Hall _ _ Hr) as [Hnonneg Hstart].
    destruct (is_active r) eqn:Ha, (last_start r) as [since|] eqn:Hls;
      cbn [fst]; try specialize (Hstart since eq_refl);
      repeat split; try lra; intros r0 [= <-]; congruence.
  - repeat split; try lra; discriminate.
Qed.

Lemma total_time_grows_with_the_clock_witness :
  let self := run Scenario.two_pauses init in
  banked_seconds 7 self <= eval (get_total_time 7 10) self /\
  eval (get_total_time 7 10) self <= eval (get_total_time 7 30) self.
Proof.
  intros self.
  assert (clock_from 0 Scenario.two_pauses) as Hclock
    by (cbn; repeat split; lra).
  assert (Forall add_nonneg Scenario.two_pauses) as Hadd
    by (repeat constructor).
  assert (clock_after 0 Scenario.two_pauses <= 10) as Hnow1 by (cbn; lra).
  assert (10 <= 30) as Hnow2 by lra.
  destruct (total_time_grows_with_the_clock 0 Scenario.two_pauses 7 10 30
              Hclock Hadd Hnow1 Hnow2) as (_ & Hbanked & Hgrows & _).
  split; [exact Hbanked | exact Hgrows].
Defined.

(** ** pause_count *)

(** X8. Across one ledger operation the pause count of a record that is
    still there goes up by one on an accepted pause of that user, to 0 on
    a reset of that user, and is otherwise unchanged. *)
Theorem pause_count_changes_only_by_pause_and_reset
    (self : TimeTracker.t) (ev : Event) (user_id : Z) (old new : UserData) :
  data self !! user_id = Some old ->
  data (step self ev) !! user_id = Some new ->
  pause_count new =
    if bool_decide (user ev = user_id) then
      match op ev with
      | Pause =>
          if is_active old then (pause_count old + 1)%Z else pause_count old
      | Reset => 0%Z
      | _ => pause_count old
      end
    else pause_count old.
Proof.
  intros Hold. case_bool_decide as Huser.
  - subst user_id. revert Hold.
    method_branches self ev; intros Hold; try discriminate Hold;
      injection Hold as <-;
      rewrite ?data_save_data, ?lookup_store_eq, ?Hr; cbn [data];
      rewrite ?lookup_delete_eq; intros Hnew; try discriminate Hnew;
      injection Hnew as <-; rewrite ?Ha; unfold fold_session;
      try (destruct (last_start r)); reflexivity.
  - rewrite step_other by exact Huser. rewrite Hold. intros [= <-].
    reflexivity.
Qed.

Lemma pause_count_changes_only_by_pause_and_reset_witness :
  let self := run Scenario.two_pauses init in
  exists new,
    data (step self (Scenario.at_ 10 Pause)) !! 7%Z = Some new /\
    pause_count new = 3%Z.
Proof.
  intros self.
  pose (old := default (new_user "ana") (data self !! 7%Z)).
  assert (data self !! 7%Z = Some old) as Hold by (vm_compute; reflexivity).
  eexists. split; [vm_compute; reflexivity|].
  refine (pause_count_changes_only_by_pause_and_reset
            self (Scenario.at_ 10 Pause) 7 old _ Hold _).
  vm_compute. reflexivity.
Defined.

(** ** The session history *)

Lemma history_ok_later clock clock' r :
  clock <= clock' -> history_ok clock r -> history_ok clock' r.
Proof.
  intros Hle (Hstart & Hclock & Hhist). repeat split; try assumption.
  intros since Hsince. specialize (Hclock since Hsince). lra.
Qed.

Lemma step_history_ok clock self ev :
  all_records (history_ok clock) self ->
  clock <= at_time ev ->
  all_records (history_ok (at_time ev)) (step self ev).
Proof.
  intros Hall0 Hclock.
  assert (all_records (history_ok (at_time ev)) self) as Hall.
  { intros user_id r Hr. eapply history_ok_later; [exact Hclock|].
    exact (Hall0 _ _ Hr). }
  clear Hall0.
  method_branches self ev; records_after Hall.
  all: try (destruct (Hall _ _ Hr) as (Hstart & Hsince & Hhist));
    unfold history_ok, fold_session;
    try (destruct (last_start r) as [since0|] eqn:Hls;
         [specialize (Hsince since0 eq_refl)|]);
    cbn; rewrite ?Hls.
  all: try (rewrite Ha in Hstart; destruct (Hstart eq_refl); discriminate).
  all: repeat split; eauto; try discriminate.
  all: try (intros since [= <-]; lra).
  all: try (apply Forall_app; split; [exact Hhist|]; repeat constructor;
            cbn; eauto; lra).
  all: try constructor.
Qed.

Lemma run_history_ok evs : forall clock self,
  all_records (history_ok clock) self ->
  clock_from clock evs ->
  all_records (history_ok (clock_after clock evs)) (run evs self).
Proof.
  induction evs as [|ev evs IH]; intros clock self Hall Hclock.
  - exact Hall.
  - destruct Hclock as [Hle Hclock]. cbn. apply IH; [|exact Hclock].
    apply (step_history_ok clock); assumption.
Qed.

(** X9. Along a run in which the clock does not run backwards, every entry
    of a record's history has a start and a duration that is not
    negative: the stop that wrote it found the ['last_start'] of the
    session, so the zero-duration fallback of [stop_tracking] is never
    used. *)
Theorem history_entries_are_closed_sessions
    (t0 : Q) (evs : list Event) (user_id : Z) (r : UserData) (s : Session) :
  clock_from t0 evs ->
  data (run evs init) !! user_id = Some r ->
  s ∈ sessions r ->
  closed_session s.
Proof.
  intros Hclock Hr Hs.
  pose proof (run_history_ok evs t0 init (init_all_records _) Hclock) as Hall.
  destruct (Hall _ _ Hr) as (_ & _ & Hhist).
  rewrite Forall_forall in Hhist. apply Hhist. exact Hs.
Qed.

Lemma history_entries_are_closed_sessions_witness :
  closed_session
    {| session_start := Some 0; session_end := 10; session_duration := 10 |}.
Proof.
  pose (r := default (new_user "ana")
               (data (run Scenario.one_session init) !! 7%Z)).
  assert (clock_from 0 Scenario.one_session) as Hclock
    by (cbn; repeat split; lra).
  assert (data (run Scenario.one_session init) !! 7%Z = Some r) as Hr
    by (vm_compute; reflexivity).
  refine (history_entries_are_closed_sessions 0 Scenario.one_session 7 r _
            Hclock Hr _).
  vm_compute. left.
Defined.

(** ** The counts of format_time_human *)

Lemma Qfloor_unique (k : Z) (y : Q) :
  inject_Z k <= y -> y < inject_Z (k + 1) -> Qfloor y = k.
Proof.
  intros Hlo Hhi.
  pose proof (Qfloor_le y) as Hfloor. pose proof (Qlt_floor y) as Hceil.
  assert (inject_Z k < inject_Z (Qfloor y + 1)) as H1 by lra.
  assert (inject_Z (Qfloor y) < inject_Z (k + 1)) as H2 by lra.
  rewrite <- Zlt_Qlt in H1, H2. lia.
Qed.

Lemma Qfloor_bounds (x : Q) :
  inject_Z (Qfloor x) <= x /\ x < inject_Z (Qfloor x) + 1.
Proof.
  split; [apply Qfloor_le|].
  pose proof (Qlt_floor x) as H. rewrite inject_Z_plus in H. exact H.
Qed.

Lemma floordiv_integer (x : Q) (n : Z) :
  (0 < n)%Z -> floordiv x (inject_Z n) = (Qfloor x / n)%Z.
Proof.
  intros Hn. unfold floordiv.
  destruct (Qfloor_bounds x) as [Hlo Hhi].
  assert (0 < inject_Z n) as Hnq
    by (change 0 with (inject_Z 0); rewrite <- Zlt_Qlt; exact Hn).
  pose proof (Z.div_mod (Qfloor x) n ltac:(lia)) as Hdiv.
  pose proof (Z.mod_pos_bound (Qfloor x) n Hn) as Hmod.
  set (q := (Qfloor x / n)%Z) in *. set (m := (Qfloor x mod n)%Z) in *.
  apply Qfloor_unique.
  - apply Qle_shift_div_l; [exact Hnq|].
    rewrite <- inject_Z_mult.
    eapply Qle_trans; [|exact Hlo]. rewrite <- Zle_Qle. lia.
  - apply Qlt_shift_div_r; [exact Hnq|].
    rewrite <- inject_Z_mult.
    eapply Qlt_le_trans; [exact Hhi|].
    change 1 with (inject_Z 1). rewrite <- inject_Z_plus, <- Zle_Qle. lia.
Qed.

Lemma pymod_integer (x : Q) (n : Z) :
  (0 < n)%Z ->
  Qfloor (pymod x (inject_Z n)) = (Qfloor x mod n)%Z /\
  0 <= pymod x (inject_Z n).
Proof.
  intros Hn. unfold pymod. rewrite (floordiv_integer x n Hn).
  destruct (Qfloor_bounds x) as [Hlo Hhi].
  pose proof (Z.div_mod (Qfloor x) n ltac:(lia)) as Hdiv.
  pose proof (Z.mod_pos_bound (Qfloor x) n Hn) as Hmod.
  set (q := (Qfloor x / n)%Z) in *. set (m := (Qfloor x mod n)%Z) in *.
  assert (inject_Z (Qfloor x) == inject_Z n * inject_Z q + inject_Z m) as HF.
  { rewrite <- inject_Z_mult, <- inject_Z_plus. rewrite Hdiv at 1. reflexivity. }
  assert (0 <= inject_Z m) as Hm0
    by (change 0 with (inject_Z 0); rewrite <- Zle_Qle; lia).
  split.
  - apply Qfloor_unique.
    + clearbody q m. set (a := inject_Z n * inject_Z q) in *. clearbody a. lra.
    + rewrite inject_Z_plus. change (inject_Z 1) with 1.
      clearbody q m. set (a := inject_Z n * inject_Z q) in *. clearbody a. lra.
  - clearbody q m. set (a := inject_Z n * inject_Z q) in *. clearbody a. lra.
Qed.

Lemma hours_minutes_seconds (seconds : Q) :
  0 <= seconds ->
  let hours := floordiv seconds 3600 in
  let minutes := floordiv (pymod seconds 3600) 60 in
  let secs := int (pymod seconds 60) in
  (hours * 3600 + minutes * 60 + secs = Qfloor seconds)%Z /\
  (0 <= hours)%Z /\ (0 <= minutes < 60)%Z /\ (0 <= secs < 60)%Z.
Proof.
  intros Hnonneg hours minutes secs.
  assert (0 <= Qfloor seconds)%Z as HF.
  { change 0%Z with (Qfloor 0). apply Qfloor_resp_le. exact Hnonneg. }
  assert (hours = (Qfloor seconds / 3600)%Z) as Hh
    by (apply (floordiv_integer seconds 3600); lia).
  destruct (pymod_integer seconds 3600 ltac:(lia)) as [Hm1 _].
  assert (minutes = (Qfloor seconds mod 3600 / 60)%Z) as Hm.
  { subst minutes. change (floordiv (pymod seconds 3600) 60)
      with (floordiv (pymod seconds (inject_Z 3600)) (inject_Z 60)).
    rewrite floordiv_integer by lia. rewrite Hm1. reflexivity. }
  destruct (pymod_integer seconds 60 ltac:(lia)) as [Hs1 Hs0].
  assert (secs = (Qfloor seconds mod 60)%Z) as Hs.
  { subst secs. unfold int.
    change (pymod seconds 60) with (pymod seconds (inject_Z 60)).
    assert (Qlt_bool (pymod seconds (inject_Z 60)) 0 = false) as ->
      by (apply Qlt_bool_false; exact Hs0).
    exact Hs1. }
  rewrite Hh, Hm, Hs. clear - HF. revert HF.
  generalize (Qfloor seconds). intros F HF.
  pose proof (Z.div_mod F 3600 ltac:(lia)).
  pose proof (Z.mod_pos_bound F 3600 ltac:(lia)).
  pose proof (Z.div_mod (F mod 3600) 60 ltac:(lia)).
  pose proof (Z.mod_pos_bound (F mod 3600) 60 ltac:(lia)).
  pose proof (Z.div_mod F 60 ltac:(lia)).
  pose proof (Z.mod_pos_bound F 60 ltac:(lia)).
  lia.
Qed.

Lemma Qfloor_whole_plus_fraction (whole : Z) (fraction : Q) :
  0 <= fraction -> fraction < 1 -> Qfloor (inject_Z whole + fraction) = whole.
Proof.
  intros H0 H1. apply Qfloor_unique.
  - lra.
  - rewrite inject_Z_plus. change (inject_Z 1) with 1. lra.
Qed.

(** X10. Below 2^53 seconds, [format_time_human] of [hours] hours,
    [minutes] minutes, [secs] seconds and a fraction of a second shows
    these three counts and nothing else: each count that is not zero with
    its unit, in the plural unless the count is 1, and the seconds also
    when hours and minutes are both zero. *)
Theorem format_time_human_shows_the_parts
    (hours minutes secs : Z) (fraction : Q) :
  (0 <= hours)%Z -> (0 <= minutes < 60)%Z -> (0 <= secs < 60)%Z ->
  0 <= fraction -> fraction < 1 ->
  let seconds := inject_Z (hours * 3600 + minutes * 60 + secs) + fraction in
  seconds < 9007199254740992 ->
  format_time_human seconds =
    String.concat ", "
      ((if (0 <? hours)%Z
        then [pretty hours +:+ " Hora" +:+ (if (hours =? 1)%Z then "" else "s")]
        else []) ++
       (if (0 <? minutes)%Z
        then [pretty minutes +:+ " Minuto" +:+
              (if (minutes =? 1)%Z then "" else "s")]
        else []) ++
       (if (0 <? secs)%Z || ((hours =? 0)%Z && (minutes =? 0)%Z)
        then [pretty secs +:+ " Segundo" +:+
              (if (secs =? 1)%Z then "" else "s")]
        else [])).
Proof.
  intros Hh Hm Hs Hf0 Hf1 seconds _.
  assert (0 <= seconds) as Hnonneg.
  { subst seconds.
    assert (0 <= hours * 3600 + minutes * 60 + secs)%Z as Hz by lia.
    rewrite Zle_Qle in Hz. change (inject_Z 0) with 0 in Hz. lra. }
  assert (Qfloor seconds = (hours * 3600 + minutes * 60 + secs)%Z) as Hfloor
    by (apply Qfloor_whole_plus_fraction; assumption).
  destruct (hours_minutes_seconds seconds Hnonneg)
    as (Hsum & Hh' & Hm' & Hs').
  cbn zeta in Hsum, Hh', Hm', Hs'. rewrite Hfloor in Hsum.
  assert (floordiv seconds 3600 = hours) as Eh by lia.
  assert (floordiv (pymod seconds 3600) 60 = minutes) as Em by lia.
  assert (int (pymod seconds 60) = secs) as Es by lia.
  unfold format_time_human.
  assert (Qlt_bool seconds 0 = false) as -> by (apply Qlt_bool_false; exact Hnonneg).
  rewrite Eh, Em, Es. clear - Hh Hm Hs.
  destruct (Z.ltb_spec 0 hours), (Z.ltb_spec 0 minutes), (Z.ltb_spec 0 secs),
    (Z.eqb_spec hours 1), (Z.eqb_spec minutes 1), (Z.eqb_spec secs 1),
    (Z.eqb_spec hours 0), (Z.eqb_spec minutes 0);
    try lia; reflexivity.
Qed.

Lemma format_time_human_shows_the_parts_witness :
  format_time_human (inject_Z (1 * 3600 + 0 * 60 + 5) + (1 # 2))
  = "1 Hora, 5 Segundos"%string.
Proof.
  apply (format_time_human_shows_the_parts 1 0 5 (1 # 2));
    first [lia | lra | reflexivity].
Defined.

(** ** The two credit rules *)

Lemma calculate_credits_value (total_seconds : Q) (has_special_role : bool) :
  Bot.calculate_credits total_seconds has_special_role =
    if Qlt_bool total_seconds 3600 then 0%Z
    else if Qlt_bool total_seconds 7200 then 3%Z else 5%Z.
Proof.
  unfold Bot.calculate_credits.
  pose proof (hours_times_3600 total_seconds) as Hh.
  destruct (Qlt_bool total_seconds 0) eqn:E0;
    [apply Qlt_bool_true in E0 | apply Qlt_bool_false in E0];
  (destruct (Qle_bool 2 (total_seconds / 3600)) eqn:E2;
    [apply Qle_bool_iff in E2 | apply Qle_bool_false in E2]);
  (destruct (Qle_bool 1 (total_seconds / 3600)) eqn:E1;
    [apply Qle_bool_iff in E1 | apply Qle_bool_false in E1]);
  (destruct (Qlt_bool total_seconds 3600) eqn:E3;
    [apply Qlt_bool_true in E3 | apply Qlt_bool_false in E3]);
  (destruct (Qlt_bool total_seconds 7200) eqn:E4;
    [apply Qlt_bool_true in E4 | apply Qlt_bool_false in E4]);
  try reflexivity; exfalso; lra.
Qed.

Lemma calculate_credits_from_time_closed
    (member : Bot.Member) (time_minutes : Z) :
  Bot.calculate_credits_from_time member time_minutes =
    (if (time_minutes <=? 0)%Z then 0
     else Z.max 1 (Z.min time_minutes 60 / 20))%Z.
Proof.
  unfold Bot.calculate_credits_from_time. cbn zeta.
  change (1 * 60)%Z with 60%Z.
  destruct (Z.leb_spec time_minutes 0) as [Hle|Hgt].
  - assert ((0 <? Z.min time_minutes 60)%Z = false) as ->
      by (apply Z.ltb_ge; lia). reflexivity.
  - assert ((0 <? Z.min time_minutes 60)%Z = true) as ->
      by (apply Z.ltb_lt; lia).
    f_equal. set (e := Z.min time_minutes 60).
    assert (0 < e)%Z as He by (subst e; lia).
    assert (inject_Z e / inject_Z 60 * inject_Z 3
            == inject_Z e / inject_Z 20) as Heq by (field; discriminate).
    assert (0 <= inject_Z e / inject_Z 20) as Hpos.
    { apply Qle_shift_div_l; [reflexivity|].
      rewrite Qmult_0_l.
      change 0 with (inject_Z 0). rewrite <- Zle_Qle. lia. }
    unfold int.
    assert (Qlt_bool (inject_Z e / inject_Z 60 * inject_Z 3) 0 = false) as ->
      by (apply Qlt_bool_false; rewrite Heq; exact Hpos).
    rewrite (Qfloor_comp _ _ Heq). symmetry. apply Zdiv_Qdiv.
Qed.

(** X11. [calculate_credits_from_time] gives 0 for a non-positive time
    and otherwise one credit per full 20 minutes, at least 1 and, from 60
    minutes on, 3; it is never outside 0..3. *)
Theorem calculate_credits_from_time_value
    (member : Bot.Member) (time_minutes : Z) :
  Bot.calculate_credits_from_time member time_minutes =
    (if (time_minutes <=? 0)%Z then 0
     else Z.max 1 (Z.min time_minutes 60 / 20))%Z /\
  (0 <= Bot.calculate_credits_from_time member time_minutes <= 3)%Z /\
  (Bot.calculate_credits_from_time member time_minutes = 0%Z
   <-> (time_minutes <= 0)%Z) /\
  (Bot.calculate_credits_from_time member time_minutes = 3%Z
   <-> (60 <= time_minutes)%Z).
Proof.
  rewrite calculate_credits_from_time_closed. split; [reflexivity|].
  destruct (Z.leb_spec time_minutes 0) as [Hle|Hgt].
  - repeat split; intros; lia.
  - pose proof (Z.div_mod (Z.min time_minutes 60) 20 ltac:(lia)).
    pose proof (Z.mod_pos_bound (Z.min time_minutes 60) 20 ltac:(lia)).
    repeat split; intros; lia.
Qed.

(** X12. On a time of whole minutes the stepped rule [calculate_credits]
    and the proportional rule [calculate_credits_from_time] give the same
    credits exactly when the time is not positive or is from 60 up to
    119 minutes. *)
Theorem credit_rules_agree_only_for_the_second_hour
    (member : Bot.Member) (time_minutes : Z) (has_special_role : bool) :
  Bot.calculate_credits (inject_Z (time_minutes * 60)) has_special_role
    = Bot.calculate_credits_from_time member time_minutes
  <-> (time_minutes <= 0 \/ 60 <= time_minutes < 120)%Z.
Proof.
  rewrite calculate_credits_value.
  rewrite calculate_credits_from_time_closed.
  destruct (Qlt_bool (inject_Z (time_minutes * 60)) 3600) eqn:E1;
    [apply Qlt_bool_true in E1 | apply Qlt_bool_false in E1];
  (destruct (Qlt_bool (inject_Z (time_minutes * 60)) 7200) eqn:E2;
    [apply Qlt_bool_true in E2 | apply Qlt_bool_false in E2]);
  change 3600 with (inject_Z 3600) in E1;
  change 7200 with (inject_Z 7200) in E2;
  try rewrite <- Zlt_Qlt in E1; try rewrite <- Zle_Qle in E1;
  try rewrite <- Zlt_Qlt in E2; try rewrite <- Zle_Qle in E2;
  destruct (Z.leb_spec time_minutes 0) as [Hle|Hgt];
  pose proof (Z.div_mod (Z.min time_minutes 60) 20 ltac:(lia));
  pose proof (Z.mod_pos_bound (Z.min time_minutes 60) 20 ltac:(lia));
  split; intros; lia.
Qed.

(** ** The status shown for a user *)

(** X13. On every reachable record the status of the detail commands and
    the status of the lists are the same; it is Activo exactly for a
    Running record and Inactivo exactly for an Idle one. *)
Theorem statuses_agree_on_reachable_records
    (self : TimeTracker.t) (user_id : Z) (r : UserData) (total_time : Q)
    (has_special_role : bool) :
  reachable self ->
  data self !! user_id = Some r ->
  Bot.detail_status r total_time has_special_role
    = Bot.list_status r total_time has_special_role /\
  (Bot.list_status r total_time has_special_role = Bot.Activo
   <-> is_active r = true) /\
  (Bot.list_status r total_time has_special_role = Bot.Inactivo
   <-> is_active r = false /\ is_paused r = false).
Proof.
  intros Hreach Hr.
  destruct (reachable_all_markers self Hreach user_id r Hr)
    as (_ & _ & Hexcl).
  unfold Bot.detail_status, Bot.list_status.
  destruct (is_active r), (is_paused r);
    try (specialize (Hexcl eq_refl); discriminate Hexcl);
    destruct (Bot.finished r total_time has_special_role);
    repeat split; intros; try congruence; try tauto;
    try (destruct H; congruence).
Qed.

Lemma statuses_agree_on_reachable_records_witness :
  let self := run Scenario.paused_with_added_time init in
  let r := default (new_user "ana") (data self !! 7%Z) in
  Bot.detail_status r 7500 false = Bot.list_status r 7500 false.
Proof.
  intros self r.
  assert (reachable self) as Hreach
    by (exists Scenario.paused_with_added_time; reflexivity).
  assert (data self !! 7%Z = Some r) as Hr by (vm_compute; reflexivity).
  exact (proj1 (statuses_agree_on_reachable_records
                  self 7 r 7500 false Hreach Hr)).
Defined.

(** ** One user of the catch-up sweep *)

Lemma get_total_time_derived (u : Z) (now : Q) (self : TimeTracker.t) r :
  data self !! u = Some r ->
  eval (get_total_time u now) self = derived_total now r.
Proof.
  intros Hr. unfold eval, get_total_time, derived_total. rewrite Hr.
  destruct (is_active r), (last_start r); reflexivity.
Qed.

Lemma missing_milestones_fold (notified : list Z) (hours : list Z) :
  forall missing : list (Z * Z),
    foldl (fun missing h =>
             let milestone := (h * 3600)%Z in
             if bool_decide (milestone ∈ notified) then missing
             else missing ++ [(milestone, h)])
          missing hours
    = missing
      ++ ((fun h => ((h * 3600)%Z, h))
            <$> filter (fun h => (h * 3600)%Z ∉ notified) hours).
Proof.
  induction hours as [|h hours IH]; intros missing.
  - cbn. by rewrite app_nil_r.
  - cbn [foldl]. rewrite IH. cbn zeta. case_bool_decide as Hin.
    + rewrite filter_cons_False by (intros Hn; contradiction). reflexivity.
    + rewrite filter_cons_True by exact Hin. cbn [fmap list_fmap].
      rewrite <- app_assoc. reflexivity.
Qed.

Lemma missing_milestones_filter (total_hours : Z) (notified : list Z) :
  Bot.missing_milestones total_hours notified
  = (fun h => ((h * 3600)%Z, h))
      <$> filter (fun h => (h * 3600)%Z ∉ notified) (seqZ 1 total_hours).
Proof.
  unfold Bot.missing_milestones. rewrite missing_milestones_fold. reflexivity.
Qed.

Lemma missing_milestones_elem (total_hours : Z) (notified : list Z) m h :
  (m, h) ∈ Bot.missing_milestones total_hours notified <->
  (1 <= h <= total_hours)%Z /\ m = (h * 3600)%Z /\ m ∉ notified.
Proof.
  rewrite missing_milestones_filter, list_elem_of_fmap. split.
  - intros (h' & [= -> ->] & Hin). apply list_elem_of_filter in Hin as [Hn Hin].
    apply elem_of_seqZ in Hin. repeat split; [lia|lia|exact Hn].
  - intros (Hh & -> & Hn). exists h. split; [reflexivity|].
    apply list_elem_of_filter. split; [exact Hn|]. apply elem_of_seqZ. lia.
Qed.

Lemma missing_milestones_nil (total_hours : Z) (notified : list Z) :
  Bot.missing_milestones total_hours notified = [] <->
  forall h, (1 <= h <= total_hours)%Z -> (h * 3600)%Z ∈ notified.
Proof.
  split.
  - intros Hnil h Hh.
    destruct (decide ((h * 3600)%Z ∈ notified)) as [Hin|Hn]; [exact Hin|].
    exfalso. apply (not_elem_of_nil ((h * 3600)%Z, h)).
    rewrite <- Hnil. apply missing_milestones_elem. auto.
  - intros Hall.
    destruct (Bot.missing_milestones total_hours notified) as [|[m h] l] eqn:E;
      [reflexivity|].
    assert ((m, h) ∈ Bot.missing_milestones total_hours notified) as Hin
      by (rewrite E; left).
    apply missing_milestones_elem in Hin as (Hh & -> & Hn).
    exfalso. apply Hn, Hall, Hh.
Qed.

Lemma mark_notified_grows (missing : list (Z * Z)) (notified : list Z) :
  exists added,
    Bot.mark_notified missing notified = notified ++ added /\
    forall m, m ∈ added -> m ∈ missing.*1.
Proof.
  unfold Bot.mark_notified. revert notified.
  induction missing as [|[m h] missing IH]; intros notified.
  - exists []. cbn. split; [by rewrite app_nil_r|]. intros m Hm.
    by apply elem_of_nil in Hm.
  - cbn [foldl]. case_bool_decide as Hin.
    + destruct (IH notified) as (added & -> & Hadded).
      exists added. split; [reflexivity|]. intros m' Hm'.
      cbn. right. apply Hadded, Hm'.
    + destruct (IH (notified ++ [m])) as (added & -> & Hadded).
      exists (m :: added). split; [by rewrite <- app_assoc|].
      intros m' [->|Hm']%elem_of_cons; cbn; [left|right; apply Hadded, Hm'].
Qed.

Lemma mark_notified_covers (missing : list (Z * Z)) (notified : list Z) m :
  m ∈ missing.*1 -> m ∈ Bot.mark_notified missing notified.
Proof.
  unfold Bot.mark_notified. revert notified.
  induction missing as [|[m' h] missing IH]; intros notified Hm.
  - by apply elem_of_nil in Hm.
  - cbn [foldl].
    assert (forall n, m' ∈ n ->
              m' ∈ foldl (fun notified '(milestone, _) =>
                            if bool_decide (milestone ∈ notified) then notified
                            else notified ++ [milestone]) n missing) as Hkeep.
    { intros n Hn.
      destruct (mark_notified_grows missing n) as (added & Heq & _).
      unfold Bot.mark_notified in Heq. rewrite Heq.
      apply elem_of_app. auto. }
    cbn in Hm. apply elem_of_cons in Hm as [->|Hm].
    + case_bool_decide as Hin; apply Hkeep; [exact Hin|].
      apply elem_of_app. right. left.
    + apply IH, Hm.
Qed.

Lemma marking_settles (total_hours : Z) (notified : list Z) :
  Bot.missing_milestones total_hours
    (Bot.mark_notified (Bot.missing_milestones total_hours notified) notified)
  = [].
Proof.
  apply missing_milestones_nil. intros h Hh.
  destruct (decide ((h * 3600)%Z ∈ notified)) as [Hin|Hn].
  - destruct (mark_notified_grows
                (Bot.missing_milestones total_hours notified) notified)
      as (added & -> & _).
    apply elem_of_app. auto.
  - apply mark_notified_covers. apply list_elem_of_fmap.
    exists ((h * 3600)%Z, h). split; [reflexivity|].
    apply missing_milestones_elem. auto.
Qed.

Lemma sweep_user_absent (env : Bot.Env) (now : Q) (u : Z) (bot : Bot.t) :
  data (Bot.time_tracker bot) !! u = None ->
  exec (Bot.check_missing_milestones_user env now u) bot = bot.
Proof.
  intros Hr. destruct bot as [tracker sent].
  unfold exec, Bot.check_missing_milestones_user, bind, Bot.lift,
    get_user_data, gets.
  cbn in *. rewrite Hr. reflexivity.
Qed.

Lemma sweep_user_settled (env : Bot.Env) (now : Q) (u : Z) (bot : Bot.t) r :
  data (Bot.time_tracker bot) !! u = Some r ->
  settled now r ->
  exec (Bot.check_missing_milestones_user env now u) bot = bot.
Proof.
  intros Hr Hsettled. unfold settled in Hsettled.
  rewrite <- (get_total_time_derived u now (Bot.time_tracker bot) r Hr)
    in Hsettled.
  destruct bot as [tracker sent].
  unfold exec, Bot.check_missing_milestones_user, bind, Bot.lift,
    get_user_data, gets.
  cbn beta iota zeta. cbn [Bot.time_tracker Bot.sent] in *. rewrite Hr.
  cbn beta iota zeta.
  rewrite get_total_time_run. cbn beta iota zeta.
  cbn [Bot.time_tracker Bot.sent]. rewrite Hsettled. reflexivity.
Qed.

Lemma sweep_user_acts
    (env : Bot.Env) (now : Q) (u : Z) (bot : Bot.t) (r : UserData)
    (milestone hours : Z) :
  data (Bot.time_tracker bot) !! u = Some r ->
  let total := derived_total now r in
  let missing :=
    Bot.missing_milestones (floordiv total 3600) (notified_milestones r) in
  last missing = Some (milestone, hours) ->
  let bot' := exec (Bot.check_missing_milestones_user env now u) bot in
  Bot.sent bot' =
    Bot.sent bot ++
    (if Bot.milestones_channel env
     then [(u, Bot.MilestoneNotification (name r) hours
                 (format_time_human total))]
     else []) /\
  data_file (Bot.time_tracker bot') = data (Bot.time_tracker bot') /\
  exists r',
    data (Bot.time_tracker bot') !! u = Some r' /\
    notified_milestones r'
      = Bot.mark_notified missing (notified_milestones r) /\
    is_active r' = false /\
    is_paused r' = (if is_active r then false else is_paused r) /\
    total_time r' = total /\
    last_start r' = last_start r /\
    name r' = name r /\
    pause_count r' = pause_count r.
Proof.
  intros Hr total missing Hlast bot'.
  assert ((1 <= hours)%Z) as Hhours.
  { apply last_Some_elem_of in Hlast.
    apply missing_milestones_elem in Hlast. lia. }
  pose proof (get_total_time_derived u now (Bot.time_tracker bot) r Hr)
    as Htotal. fold total in Htotal.
  subst bot'. unfold exec, Bot.check_missing_milestones_user, bind, Bot.lift,
    get_user_data, gets.
  cbn beta iota zeta. rewrite Hr. cbn beta iota zeta.
  rewrite get_total_time_run. cbn beta iota zeta.
  cbn [Bot.time_tracker Bot.sent]. rewrite Htotal.
  fold missing. rewrite Hlast.
  cbn beta iota.
  assert ((1 <=? hours)%Z = true) as -> by (apply Z.leb_le; exact Hhours).
  cbn beta iota.
  unfold Bot.assign, Bot.save, Bot.lift, modify, Bot.send, ret.
  cbn beta iota. cbn [Bot.time_tracker Bot.sent].
  set (marked := Bot.mark_notified missing (notified_milestones r)).
  set (self1 := save_data _).
  assert (data self1 !! u = Some (set_notified_milestones marked r))
    as Hr1 by (cbn; rewrite lookup_alter_eq, Hr; reflexivity).
  destruct (stop_tracking_record u now self1 _ Hr1)
    as (r2 & Hr2 & Ha2 & Hp2 & Ht2 & Hn2 & Hname2).
  assert (last_start r2 = last_start r /\ pause_count r2 = pause_count r
          /\ data_file (exec (stop_tracking u now) self1)
             = data (exec (stop_tracking u now) self1)) as (Hls2 & Hpc2 & Hsync).
  { revert Hr2. unfold exec, stop_tracking. rewrite Hr1.
    cbn [is_active set_notified_milestones].
    destruct (is_active r); cbn [negb snd].
    - rewrite data_save_data, lookup_store_eq. intros [= <-].
      unfold fold_session. cbn.
      destruct (last_start r) eqn:Hls; cbn; rewrite ?Hls; repeat split.
    - rewrite Hr1. intros [= <-]. cbn. repeat split. }
  unfold exec in Hr2, Hsync.
  destruct (stop_tracking u now self1) as [a tracker].
  cbn [snd] in Hr2, Hsync. cbn in Ha2, Hp2, Hn2, Hname2.
  assert (total_time r2 = total) as Ht2'.
  { rewrite Ht2. unfold total, derived_total, fold_session. cbn.
    destruct (is_active r), (last_start r); reflexivity. }
  clear Ht2.
  cbn beta iota.
  destruct (Bot.has_unlimited_time_role env u);
    cbn beta iota; cbn [Bot.time_tracker Bot.sent]; rewrite ?Hr2;
    cbn beta iota; cbn [Bot.time_tracker Bot.sent];
    (destruct (Bot.milestones_channel env);
     unfold modify; cbn beta iota;
     cbn [Bot.time_tracker Bot.sent snd data data_file save_data];
     rewrite ?app_nil_r;
     (split; [reflexivity|]); (split; [reflexivity|]);
     rewrite ?lookup_alter_eq, Hr2; cbn [fmap option_fmap option_map];
     eexists; (split; [reflexivity|]); cbn; auto 10).
Qed.

(** X14. The sweep's pass over one tracked user only appends to the
    notified milestones and leaves every whole hour up to the user's total
    notified; it sends at most one message, and it either changes nothing
    or leaves the user not Running. *)
Theorem catch_up_marks_every_hour
    (env : Bot.Env) (now : Q) (u : Z) (bot : Bot.t) (r : UserData) :
  data (Bot.time_tracker bot) !! u = Some r ->
  let total_hours :=
    floordiv (eval (get_total_time u now) (Bot.time_tracker bot)) 3600 in
  let bot' := exec (Bot.check_missing_milestones_user env now u) bot in
  exists r' added new,
    data (Bot.time_tracker bot') !! u = Some r' /\
    notified_milestones r' = notified_milestones r ++ added /\
    (forall h, (1 <= h <= total_hours)%Z ->
               (h * 3600)%Z ∈ notified_milestones r') /\
    Bot.sent bot' = Bot.sent bot ++ new /\
    (length new <= 1)%nat /\
    (bot' = bot \/ is_active r' = false).
Proof.
  intros Hr total_hours bot'. subst total_hours.
  rewrite (get_total_time_derived u now _ r Hr).
  destruct (last (Bot.missing_milestones
                    (floordiv (derived_total now r) 3600)
                    (notified_milestones r)))
    as [[milestone hours]|] eqn:Hlast.
  - destruct (sweep_user_acts env now u bot r milestone hours Hr Hlast)
      as (Hsent & _ & r' & Hr' & Hn' & Ha' & _).
    destruct (mark_notified_grows
                (Bot.missing_milestones
                   (floordiv (derived_total now r) 3600)
                   (notified_milestones r))
                (notified_milestones r)) as (added & Hadded & _).
    exists r', added, (if Bot.milestones_channel env
                       then [(u, Bot.MilestoneNotification (name r) hours
                                   (format_time_human (derived_total now r)))]
                       else []).
    split; [exact Hr'|]. split; [by rewrite Hn'|].
    split; [|split; [exact Hsent|split; [|right; exact Ha']]].
    + rewrite Hn'. apply missing_milestones_nil, marking_settles.
    + destruct (Bot.milestones_channel env); cbn; lia.
  - apply last_None in Hlast.
    exists r, [], []. subst bot'.
    rewrite (sweep_user_settled env now u bot r Hr Hlast).
    rewrite !app_nil_r. repeat split; auto.
    apply missing_milestones_nil, Hlast.
Qed.

Lemma catch_up_marks_every_hour_witness :
  let bot := Scenario.bot_of (run Scenario.running_with_added_time init) in
  let r := default (new_user "ana") (data (Bot.time_tracker bot) !! 7%Z) in
  let total_hours :=
    floordiv (eval (get_total_time 7 100) (Bot.time_tracker bot)) 3600 in
  let bot' := exec (Bot.check_missing_milestones_user Scenario.env 100 7) bot in
  exists r' added new,
    data (Bot.time_tracker bot') !! 7%Z = Some r' /\
    notified_milestones r' = notified_milestones r ++ added /\
    (forall h, (1 <= h <= total_hours)%Z ->
               (h * 3600)%Z ∈ notified_milestones r') /\
    Bot.sent bot' = Bot.sent bot ++ new /\
    (length new <= 1)%nat /\
    (bot' = bot \/ is_active r' = false).
Proof.
  intros bot r.
  assert (data (Bot.time_tracker bot) !! 7%Z = Some r) as Hr
    by (vm_compute; reflexivity).
  exact (catch_up_marks_every_hour Scenario.env 100 7 bot r Hr).
Defined.

(** ** The handlers with every clock reading of their own *)

Lemma stop_tracking_at_one_reading (user_id : Z) (now : Q) :
  stop_tracking_at user_id now now = stop_tracking user_id now.
Proof. reflexivity. Qed.

Lemma check_time_milestone_at_one_reading
    (env : Bot.Env) (now : Q) (user_id : Z) (user_name : string) :
  Bot.check_time_milestone_at env
    {| Bot.session_reading := now; Bot.total_reading := now;
       Bot.stop_reading := now; Bot.end_reading := now |} user_id user_name
  = Bot.check_time_milestone env now user_id user_name.
Proof. reflexivity. Qed.

Lemma check_missing_milestones_user_at_one_reading
    (env : Bot.Env) (now : Q) (user_id : Z) :
  Bot.check_missing_milestones_user_at env
    {| Bot.session_reading := now; Bot.total_reading := now;
       Bot.stop_reading := now; Bot.end_reading := now |} user_id
  = Bot.check_missing_milestones_user env now user_id.
Proof. reflexivity. Qed.

Lemma stop_tracking_at_record (u : Z) (now end_time : Q) (self : TimeTracker.t) r :
  data self !! u = Some r ->
  let self' := exec (stop_tracking_at u now end_time) self in
  (data_file self = data self -> data_file self' = data self') /\
  (forall v, v <> u -> data self' !! v = data self !! v) /\
  exists r',
    data self' !! u = Some r' /\
    is_active r' = false /\
    is_paused r' = (if is_active r then false else is_paused r) /\
    total_time r' = derived_total now r /\
    notified_milestones r' = notified_milestones r /\
    milestone_completed r' = milestone_completed r /\
    name r' = name r.
Proof.
  intros Hr self'. subst self'. unfold exec, stop_tracking_at. rewrite Hr.
  destruct (is_active r) eqn:Ha; cbn [negb snd].
  - split; [reflexivity|]. split.
    + intros v Hv. rewrite data_save_data. apply lookup_store_ne. congruence.
    + rewrite data_save_data, lookup_store_eq. eexists.
      split; [reflexivity|].
      unfold derived_total, fold_session. rewrite Ha.
      destruct (last_start r); cbn; repeat split.
  - split; [auto|]. split; [reflexivity|]. exists r.
    unfold derived_total. rewrite Hr, Ha. repeat split.
Qed.








Section SecondSweep.

Variables (env : Bot.Env) (first second : Z -> Bot.Readings).

Let body (clock : Z -> Bot.Readings) : Z * UserData -> State Bot.t unit :=
  fun '(user_id, _) =>
    Bot.check_missing_milestones_user_at env (clock user_id) user_id.




End SecondSweep.



(** ** check_time_milestone *)

(** X16. [check_time_milestone] does nothing for a user without a
    record, for a user who is not Running, and for a Running user whose
    open session is younger than one hour, whatever the total. *)
Theorem check_time_milestone_needs_an_hour
    (env : Bot.Env) (now : Q) (u : Z) (user_name : string) (bot : Bot.t) :
  match data (Bot.time_tracker bot) !! u with
  | None => True
  | Some r =>
      is_active r = false \/
      match last_start r with
      | None => True
      | Some since => is_paused r = false /\ now - since < 3600
      end
  end ->
  exec (Bot.check_time_milestone env now u user_name) bot = bot.
Proof.
  destruct bot as [tracker sent].
  unfold exec, Bot.check_time_milestone, bind, Bot.lift, get_user_data, gets.
  cbn beta iota zeta. cbn [Bot.time_tracker Bot.sent].
  destruct (data tracker !! u) as [r|]; [|reflexivity].
  destruct (is_active r); cbn [negb]; [|reflexivity].
  intros [Hidle|Hshort]; [discriminate|].
  destruct (last_start r) as [since|]; [|reflexivity].
  destruct Hshort as [-> Hshort].
  apply Qlt_bool_true in Hshort. rewrite Hshort. reflexivity.
Qed.

Lemma check_time_milestone_needs_an_hour_witness :
  let bot := Scenario.bot_of (run Scenario.two_pauses init) in
  exec (Bot.check_time_milestone Scenario.env 100 7 "ana") bot = bot.
Proof.
  intros bot.
  apply (check_time_milestone_needs_an_hour Scenario.env 100 7 "ana" bot).
  vm_compute. right. split; reflexivity.
Defined.

Lemma floordiv_at_least_one (total : Q) :
  3600 <= total -> (1 <= floordiv total 3600)%Z.
Proof.
  intros H. unfold floordiv. change 1%Z with (Qfloor 1).
  apply Qfloor_resp_le. pose proof (hours_times_3600 total). lra.
Qed.

(** X17. For a Running user whose open session has reached one hour when
    [check_time_milestone] tests it, every whole hour of the total read
    next is left notified, [milestone_completed] is never touched and at
    most one message is sent; unless nothing changes at all, the user ends
    up Idle with the session banked up to the reading [stop_tracking]
    took. *)
Theorem check_time_milestone_effect
    (env : Bot.Env) (clock : Bot.Readings) (u : Z) (user_name : string)
    (bot : Bot.t) (r : UserData) (since : Q) :
  data (Bot.time_tracker bot) !! u = Some r ->
  is_active r = true -> is_paused r = false ->
  last_start r = Some since ->
  3600 <= Bot.session_reading clock - since ->
  Bot.session_reading clock <= Bot.total_reading clock ->
  0 <= total_time r ->
  let total := total_time r + (Bot.total_reading clock - since) in
  let bot' := exec (Bot.check_time_milestone_at env clock u user_name) bot in
  exists r' new,
    data (Bot.time_tracker bot') !! u = Some r' /\
    (forall h, (1 <= h <= floordiv total 3600)%Z ->
               (h * 3600)%Z ∈ notified_milestones r') /\
    milestone_completed r' = milestone_completed r /\
    Bot.sent bot' = Bot.sent bot ++ new /\ (length new <= 1)%nat /\
    (bot' = bot \/
     (is_active r' = false /\ is_paused r' = false /\
      total_time r' = total_time r + (Bot.stop_reading clock - since))).
Proof.
  intros Hr Ha Hp Hls Hsession Hlater Hbanked total bot'.
  assert (derived_total (Bot.total_reading clock) r = total) as Hderived
    by (unfold derived_total; rewrite Ha, Hls; reflexivity).
  pose proof (get_total_time_derived u (Bot.total_reading clock) _ r Hr)
    as Htotal.
  rewrite Hderived in Htotal.
  assert (Qlt_bool (Bot.session_reading clock - since) 3600 = false) as Hlong
    by (apply Qlt_bool_false; exact Hsession).
  subst bot'. destruct bot as [tracker sent].
  cbn [Bot.time_tracker Bot.sent] in *.
  unfold exec, Bot.check_time_milestone_at, bind, Bot.lift, get_user_data, gets.
  cbn beta iota zeta. cbn [Bot.time_tracker Bot.sent].
  rewrite Hr. cbn beta iota. rewrite Ha. cbn [negb]. cbn beta iota.
  rewrite Hls. cbn beta iota. rewrite Hp. cbn beta iota. rewrite Hlong.
  cbn beta iota.
  rewrite get_total_time_run. cbn beta iota zeta.
  cbn [Bot.time_tracker Bot.sent]. rewrite Htotal.
  destruct (last (Bot.missing_milestones (floordiv total 3600)
                    (notified_milestones r)))
    as [[milestone hours]|] eqn:Hlast.
  - cbn beta iota.
    unfold Bot.assign, Bot.save, Bot.lift, modify, Bot.send, ret.
    cbn beta iota. cbn [Bot.time_tracker Bot.sent].
    set (marked := Bot.mark_notified _ (notified_milestones r)).
    set (self1 := save_data _).
    assert (data self1 !! u = Some (set_notified_milestones marked r))
      as Hr1 by (cbn; rewrite lookup_alter_eq, Hr; reflexivity).
    destruct (stop_tracking_at_record u (Bot.stop_reading clock)
                (Bot.end_reading clock) self1 _ Hr1)
      as (_ & _ & r2 & Hr2 & Ha2 & Hp2 & Ht2 & Hn2 & Hmc2 & _).
    unfold exec in Hr2.
    destruct (stop_tracking_at u (Bot.stop_reading clock)
                (Bot.end_reading clock) self1) as [a tracker'].
    cbn [snd] in Hr2. cbn in Ha2, Hp2, Hn2, Hmc2.
    rewrite Ha in Hp2.
    assert (total_time r2 = total_time r + (Bot.stop_reading clock - since))
      as Ht2'.
    { rewrite Ht2. unfold derived_total. cbn. rewrite Ha, Hls. reflexivity. }
    cbn beta iota.
    exists r2,
      (if Bot.milestones_channel env
       then [(u, Bot.MilestoneNotification user_name hours
                   (format_time_human total))]
       else []).
    destruct (Bot.milestones_channel env);
      cbn beta iota; cbn [Bot.time_tracker Bot.sent snd];
      rewrite ?app_nil_r;
      (split; [exact Hr2|]);
      (split; [rewrite Hn2; subst marked;
               apply missing_milestones_nil, marking_settles|]);
      (split; [exact Hmc2|]); (split; [reflexivity|]);
      (split; [cbn; lia|]); right; auto.
  - apply last_None in Hlast.
    pose proof (proj1 (missing_milestones_nil _ _) Hlast) as Hall.
    assert (3600 <= total) as Hbig by (subst total; lra).
    pose proof (floordiv_at_least_one total Hbig) as Hone.
    rewrite bool_decide_eq_true_2 by (apply Hall; lia).
    exists r, []. cbn. rewrite app_nil_r.
    repeat split; auto.
Qed.

Lemma check_time_milestone_effect_witness :
  let bot := Scenario.bot_of (run [Scenario.at_ 0 (Start "ana")] init) in
  let clock :=
    {| Bot.session_reading := 4000; Bot.total_reading := 4001;
       Bot.stop_reading := 4002; Bot.end_reading := 4003 |} in
  let r := default (new_user "ana") (data (Bot.time_tracker bot) !! 7%Z) in
  let bot' :=
    exec (Bot.check_time_milestone_at Scenario.env clock 7 "ana") bot in
  exists r' new,
    data (Bot.time_tracker bot') !! 7%Z = Some r' /\
    (forall h, (1 <= h <= floordiv (total_time r + (4001 - 0)) 3600)%Z ->
               (h * 3600)%Z ∈ notified_milestones r') /\
    milestone_completed r' = milestone_completed r /\
    Bot.sent bot' = Bot.sent bot ++ new /\ (length new <= 1)%nat /\
    (bot' = bot \/
     (is_active r' = false /\ is_paused r' = false /\
      total_time r' = total_time r + (4002 - 0))).
Proof.
  intros bot clock r.
  assert (data (Bot.time_tracker bot) !! 7%Z = Some r) as Hr
    by (vm_compute; reflexivity).
  assert (is_active r = true) as Ha by (vm_compute; reflexivity).
  assert (is_paused r = false) as Hp by (vm_compute; reflexivity).
  assert (last_start r = Some 0) as Hls by (vm_compute; reflexivity).
  assert (3600 <= Bot.session_reading clock - 0) as Hsession
    by (vm_compute; discriminate).
  assert (Bot.session_reading clock <= Bot.total_reading clock) as Hlater
    by (vm_compute; discriminate).
  assert (0 <= total_time r) as Hbanked by (vm_compute; discriminate).
  exact (check_time_milestone_effect Scenario.env clock 7 "ana" bot r 0
           Hr Ha Hp Hls Hsession Hlater Hbanked).
Defined.

(** ** The commands *)

Lemma Qle_bool_hours (n : Q) (total : Q) :
  Qle_bool n (total / 3600) = true <-> n * 3600 <= total.
Proof.
  rewrite Qle_bool_iff. pose proof (hours_times_3600 total) as Hh.
  set (x := total / 3600) in *. clearbody x. split; intros; lra.
Qed.

Lemma Qle_bool_hours_false (n : Q) (total : Q) :
  Qle_bool n (total / 3600) = false <-> total < n * 3600.
Proof.
  rewrite Qle_bool_false. pose proof (hours_times_3600 total) as Hh.
  set (x := total / 3600) in *. clearbody x. split; intros; lra.
Qed.

(** X18. [iniciar_tiempo] starts nobody whose total has reached the
    ceiling of their role (1 hour, 4 hours with the special role), and no
    bot. A refusal changes nothing; a start sends no notification and
    leaves the user Running since now under the display name, with the
    banked seconds untouched. *)
Theorem iniciar_tiempo_respects_the_ceiling
    (env : Bot.Env) (usuario : Bot.Member) (usuario_bot : bool) (now : Q)
    (bot : Bot.t) :
  let total := eval (get_total_time (Bot.id usuario) now) (Bot.time_tracker bot) in
  let ceiling : Q :=
    if Bot.has_unlimited_time_role env (Bot.id usuario) then 4 * 3600
    else 1 * 3600 in
  let reply := eval (Commands.iniciar_tiempo env usuario usuario_bot now) bot in
  let bot' := exec (Commands.iniciar_tiempo env usuario usuario_bot now) bot in
  (reply <> Commands.Started -> bot' = bot) /\
  (ceiling <= total -> reply <> Commands.Started) /\
  (reply = Commands.Started ->
   usuario_bot = false /\ total < ceiling /\
   Bot.sent bot' = Bot.sent bot /\
   exists r',
     data (Bot.time_tracker bot') !! Bot.id usuario = Some r' /\
     is_active r' = true /\ is_paused r' = false /\
     last_start r' = Some now /\
     name r' = Bot.display_name usuario /\
     total_time r' = banked_seconds (Bot.id usuario) (Bot.time_tracker bot)).
Proof.
  intros total ceiling reply bot'. subst total ceiling reply bot'.
  destruct bot as [tracker sent]. cbn [Bot.time_tracker Bot.sent] in *.
  unfold eval, exec, Commands.iniciar_tiempo.
  destruct usuario_bot.
  { cbn. repeat split; intros; congruence. }
  unfold bind, Bot.lift, get_user_data, gets, get_total_time, start_tracking,
    banked_seconds, ret.
  cbn [Bot.time_tracker Bot.sent].
  destruct (data tracker !! Bot.id usuario) as [r|] eqn:Hr;
    rewrite ?Hr, ?lookup_store_eq; unfold default, id;
    cbn [from_option new_user is_active is_paused last_start total_time];
    try (destruct (is_active r) eqn:Ha); try (destruct (is_paused r) eqn:Hp);
    try (destruct (last_start r) as [since|] eqn:Hls);
    destruct (Bot.has_unlimited_time_role env (Bot.id usuario));
    cbn [negb];
    repeat match goal with
      | |- context [Qle_bool ?n (?x / 3600)] =>
          let E := fresh "E" in
          destruct (Qle_bool n (x / 3600)) eqn:E;
          [apply Qle_bool_hours in E | apply Qle_bool_hours_false in E]
      end;
    cbn beta iota; cbn [fst snd Bot.time_tracker Bot.sent];
    rewrite ?Hr, ?Hp; cbn beta iota; cbn [fst snd Bot.time_tracker Bot.sent];
    rewrite ?Hr, ?lookup_store_eq; cbn beta iota;
    cbn [fst snd Bot.time_tracker Bot.sent from_option new_user is_active
         is_paused];
    rewrite ?Ha, ?Hp; cbn beta iota;
    cbn [fst snd Bot.time_tracker Bot.sent];
    (split; [intros; congruence|]);
    (split; [intros; first [congruence | lra]|]);
    intros Hstarted; try discriminate Hstarted;
    (split; [reflexivity|]); (split; [lra|]); (split; [reflexivity|]);
    eexists; (split; [apply lookup_insert_eq|]); cbn; repeat split.
Qed.

(** X19. [sumar_minutos] and [restar_minutos] refuse a number of minutes
    that is zero or negative, and then change nothing. *)
Theorem minute_commands_reject_non_positive
    (env : Bot.Env) (usuario : Bot.Member) (minutos : Z) (now : Q)
    (bot : Bot.t) :
  (minutos <= 0)%Z ->
  Commands.sumar_minutos env usuario minutos now bot
    = (Commands.MustBePositive, bot) /\
  Commands.restar_minutos usuario minutos now bot
    = (Commands.MustBePositive, bot).
Proof.
  intros Hle. unfold Commands.sumar_minutos, Commands.restar_minutos.
  assert ((minutos <=? 0)%Z = true) as -> by (apply Z.leb_le; exact Hle).
  split; reflexivity.
Qed.

Lemma minute_commands_reject_non_positive_witness :
  let bot := Scenario.bot_of (run Scenario.one_session init) in
  Commands.sumar_minutos Scenario.env Scenario.ana (-5) 20 bot
    = (Commands.MustBePositive, bot) /\
  Commands.restar_minutos Scenario.ana (-5) 20 bot
    = (Commands.MustBePositive, bot).
Proof.
  intros bot.
  apply (minute_commands_reject_non_positive Scenario.env Scenario.ana (-5) 20
           bot).
  lia.
Defined.

Lemma check_time_milestone_not_running
    (env : Bot.Env) (now : Q) (u : Z) (user_name : string) (bot : Bot.t)
    (r : UserData) :
  data (Bot.time_tracker bot) !! u = Some r -> is_active r = false ->
  Bot.check_time_milestone env now u user_name bot = (tt, bot).
Proof.
  intros Hr Ha. destruct bot as [tracker sent].
  unfold Bot.check_time_milestone, bind, Bot.lift, get_user_data, gets.
  cbn beta iota zeta. cbn [Bot.time_tracker Bot.sent] in *.
  rewrite Hr. cbn beta iota. rewrite Ha. reflexivity.
Qed.

(** X20. For a user who is not Running (or not yet known),
    [sumar_minutos] with a positive number of minutes does what
    [add_minutes] does and nothing more: no message is sent, the reply
    shows the new banked total, which is the old one plus the minutes. *)
Theorem sumar_minutos_on_a_user_not_running
    (env : Bot.Env) (usuario : Bot.Member) (minutos : Z) (now : Q)
    (bot : Bot.t) :
  (0 < minutos)%Z ->
  match data (Bot.time_tracker bot) !! Bot.id usuario with
  | Some r => is_active r = false
  | None => True
  end ->
  let added :=
    exec (add_minutes (Bot.id usuario) (Bot.display_name usuario) minutos)
         (Bot.time_tracker bot) in
  Commands.sumar_minutos env usuario minutos now bot
    = (Commands.Added minutos
         (format_time_human (banked_seconds (Bot.id usuario) added)),
       {| Bot.time_tracker := added; Bot.sent := Bot.sent bot |}) /\
  banked_seconds (Bot.id usuario) added
    == banked_seconds (Bot.id usuario) (Bot.time_tracker bot)
       + inject_Z minutos * 60.
Proof.
  intros Hpos Hidle added.
  assert (exists r',
            data added !! Bot.id usuario = Some r' /\ is_active r' = false /\
            total_time r' == banked_seconds (Bot.id usuario) (Bot.time_tracker bot)
                             + inject_Z minutos * 60)
    as (r' & Hr' & Ha' & Ht').
  { subst added. unfold exec, add_minutes, banked_seconds. cbn [snd].
    rewrite data_save_data, lookup_store_eq. eexists. split; [reflexivity|].
    pose proof (inject_Z_minutes minutos) as Hm.
    destruct (data (Bot.time_tracker bot) !! Bot.id usuario) as [r|] eqn:Hr.
    - rewrite Hr. cbn. split; [exact Hidle|lra].
    - rewrite lookup_store_eq. cbn. split; [reflexivity|lra]. }
  assert (eval (get_total_time (Bot.id usuario) now) added
          = banked_seconds (Bot.id usuario) added) as Htotal.
  { unfold eval, get_total_time, banked_seconds. rewrite Hr', Ha'.
    reflexivity. }
  split.
  - unfold Commands.sumar_minutos.
    assert ((minutos <=? 0)%Z = false) as -> by (apply Z.leb_gt; exact Hpos).
    unfold bind, Bot.lift.
    change (add_minutes (Bot.id usuario) (Bot.display_name usuario) minutos
              (Bot.time_tracker bot)) with (true, added).
    cbn beta iota zeta. cbn [Bot.time_tracker Bot.sent].
    rewrite get_total_time_run. cbn beta iota zeta.
    rewrite (check_time_milestone_not_running env now (Bot.id usuario)
               (Bot.display_name usuario)
               {| Bot.time_tracker := added; Bot.sent := Bot.sent bot |}
               r' Hr' Ha').
    cbn beta iota. unfold ret. rewrite Htotal. reflexivity.
  - unfold banked_seconds at 1. rewrite Hr'. exact Ht'.
Qed.

Lemma sumar_minutos_on_a_user_not_running_witness :
  let bot := Scenario.bot_of (run Scenario.one_session init) in
  let added := exec (add_minutes 7 "ana" 30) (Bot.time_tracker bot) in
  Commands.sumar_minutos Scenario.env Scenario.ana 30 20 bot
    = (Commands.Added 30 (format_time_human (banked_seconds 7 added)),
       {| Bot.time_tracker := added; Bot.sent := Bot.sent bot |}) /\
  banked_seconds 7 added
    == banked_seconds 7 (Bot.time_tracker bot) + inject_Z 30 * 60.
Proof.
  intros bot.
  apply (sumar_minutos_on_a_user_not_running Scenario.env Scenario.ana 30 20
           bot).
  - lia.
  - vm_compute. reflexivity.
Defined.

(** X21. [restar_minutos] with a positive number of minutes never takes
    a non-negative banked total below zero, never raises it, subtracts
    exactly when there is enough, and sends nothing. *)
Theorem restar_minutos_floors_at_zero
    (usuario : Bot.Member) (minutos : Z) (now : Q) (bot : Bot.t) (r : UserData) :
  (0 < minutos)%Z ->
  data (Bot.time_tracker bot) !! Bot.id usuario = Some r ->
  0 <= total_time r ->
  let bot' := exec (Commands.restar_minutos usuario minutos now) bot in
  exists r',
    data (Bot.time_tracker bot') !! Bot.id usuario = Some r' /\
    0 <= total_time r' /\ total_time r' <= total_time r /\
    (inject_Z minutos * 60 <= total_time r ->
     total_time r' == total_time r - inject_Z minutos * 60) /\
    Bot.sent bot' = Bot.sent bot.
Proof.
  intros Hpos Hr Hnonneg bot'. subst bot'.
  unfold exec, Commands.restar_minutos.
  assert ((minutos <=? 0)%Z = false) as -> by (apply Z.leb_gt; exact Hpos).
  unfold bind, Bot.lift, subtract_minutes. rewrite Hr.
  cbn beta iota zeta. cbn [Bot.time_tracker Bot.sent].
  rewrite get_total_time_run. cbn beta iota zeta. unfold ret.
  cbn [snd Bot.time_tracker Bot.sent].
  rewrite data_save_data, lookup_store_eq. eexists. split; [reflexivity|].
  cbn [total_time set_total_time].
  pose proof (inject_Z_minutes minutos) as Hm.
  assert (0 <= inject_Z (minutos * 60)) as Hmin
    by (apply minutes_seconds_nonneg; lia).
  destruct (pymax_0_spec (total_time r - inject_Z (minutos * 60)))
    as (H0 & Hp & Hn).
  repeat split; try exact H0.
  - destruct (Qlt_le_dec (total_time r - inject_Z (minutos * 60)) 0).
    + rewrite Hn by lra. exact Hnonneg.
    + rewrite Hp by lra. lra.
  - intros Henough. rewrite Hp by lra. lra.
Qed.

Lemma restar_minutos_floors_at_zero_witness :
  let bot := Scenario.bot_of (run Scenario.added_time init) in
  let r := set_total_time 7500 (new_user "ana") in
  let bot' := exec (Commands.restar_minutos Scenario.ana 200 20) bot in
  exists r',
    data (Bot.time_tracker bot') !! 7%Z = Some r' /\
    0 <= total_time r' /\ total_time r' <= total_time r /\
    (inject_Z 200 * 60 <= total_time r ->
     total_time r' == total_time r - inject_Z 200 * 60) /\
    Bot.sent bot' = Bot.sent bot.
Proof.
  intros bot r.
  assert (data (Bot.time_tracker bot) !! 7%Z = Some r) as Hr
    by (vm_compute; reflexivity).
  assert (0 <= total_time r) as Hnonneg by (vm_compute; discriminate).
  exact (restar_minutos_floors_at_zero Scenario.ana 200 20 bot r
           ltac:(lia) Hr Hnonneg).
Defined.

(** ** The paged list *)

Section Paging.

Import TimesView.
Local Close Scope Q_scope.

Lemma chunks_concat {A} (m : nat) :
  (0 < m)%nat ->
  forall (k : nat) (l : list A),
    (length l <= k * m)%nat ->
    concat ((fun p => take m (drop (p * m) l)) <$> seq 0 k) = l.
Proof.
  intros Hm. induction k as [|k IH]; intros l Hlen.
  - destruct l; [reflexivity|cbn in Hlen; lia].
  - cbn [seq fmap list_fmap concat]. rewrite <- fmap_S_seq, <- list_fmap_compose.
    cbn [Nat.mul drop]. 
    assert (((fun p => take m (drop (p * m) l)) ∘ S) <$> seq 0 k
            = (fun p => take m (drop (p * m) (drop m l))) <$> seq 0 k) as ->.
    { apply list_fmap_ext. intros i p _. cbn. rewrite drop_drop.
      reflexivity. }
    rewrite IH; [apply take_drop|]. rewrite length_drop. lia.
Qed.

Lemma pages_cover (len per_page : Z) :
  0 < per_page -> 0 <= len ->
  let total := (len + per_page - 1) / per_page in
  0 <= total /\ len <= total * per_page /\
  (forall p, 0 <= p < total -> p * per_page < len) /\
  (per_page < len -> 1 < total).
Proof.
  intros Hm Hlen total.
  pose proof (Z.div_mod (len + per_page - 1) per_page ltac:(lia)) as Hdiv.
  pose proof (Z.mod_pos_bound (len + per_page - 1) per_page Hm) as Hmod.
  fold total in Hdiv.
  set (rest := (len + per_page - 1) mod per_page) in *. clearbody total rest.
  repeat split; intros; nia.
Qed.

Lemma page_slice {A} (l : list A) (p per_page : Z) :
  0 <= p -> 0 < per_page ->
  slice l (p * per_page)
        (Z.min (p * per_page + per_page) (Z.of_nat (length l)))
  = take (Z.to_nat per_page) (drop (Z.to_nat p * Z.to_nat per_page) l).
Proof.
  intros Hp Hm. unfold slice, slice_index.
  assert (0 <= p * per_page) as Hstart by nia.
  rewrite (proj2 (Z.ltb_ge _ _) Hstart).
  rewrite (proj2 (Z.ltb_ge (Z.min (p * per_page + per_page)
                              (Z.of_nat (length l))) 0)) by lia.
  rewrite <- Z2Nat.inj_mul by lia.
  set (len := Z.of_nat (length l)).
  destruct (Z_le_gt_dec (p * per_page) len) as [Hin|Hout].
  - rewrite (Z.min_r len (p * per_page)) by lia.
    destruct (Z_le_gt_dec (p * per_page + per_page) len) as [Hfull|Hlast].
    + f_equal. lia.
    + rewrite !take_ge; [reflexivity| |]; rewrite length_drop; lia.
  - rewrite (drop_ge l (Z.to_nat (p * per_page))) by lia.
    rewrite take_nil.
    replace (Z.to_nat _) with 0%nat by lia. reflexivity.
Qed.

Lemma page_length {A} (l : list A) (p per_page : Z) :
  0 <= p -> 0 < per_page -> p * per_page < Z.of_nat (length l) ->
  (0 < length (take (Z.to_nat per_page)
                 (drop (Z.to_nat p * Z.to_nat per_page) l))
   <= Z.to_nat per_page)%nat.
Proof.
  intros Hp Hm Hlt. rewrite length_take, length_drop.
  rewrite <- Z2Nat.inj_mul by lia. lia.
Qed.

(** X22. With a positive page size the pages of a [TimesView], in order,
    are the sorted list cut into consecutive pieces: together they give
    the list back, and no page is empty or longer than the page size. *)
Theorem pages_partition_the_list {A} (users : list A) (per_page : Z) :
  0 < per_page ->
  exists view,
    init users per_page = Some view /\
    concat ((fun p => current_users (get_embed (set_current_page p view)))
              <$> seqZ 0 (total_pages view)) = users /\
    forall p, 0 <= p < total_pages view ->
      (0 < length (current_users (get_embed (set_current_page p view)))
       <= Z.to_nat per_page)%nat.
Proof.
  intros Hm. unfold init.
  rewrite (proj2 (Z.eqb_neq per_page 0)) by lia.
  eexists. split; [reflexivity|].
  cbn [total_pages get_embed set_current_page current_users sorted_users
       max_per_page current_page].
  destruct (pages_cover (Z.of_nat (length users)) per_page Hm ltac:(lia))
    as (Htotal & Hcover & Hinside & _).
  cbn zeta in Htotal, Hcover, Hinside.
  set (total := (Z.of_nat (length users) + per_page - 1) / per_page) in *.
  split.
  - unfold seqZ. rewrite <- list_fmap_compose.
    rewrite (list_fmap_ext _
               (fun p => take (Z.to_nat per_page)
                           (drop (p * Z.to_nat per_page) users))).
    + apply chunks_concat; [lia|]. nia.
    + intros i p _. cbn. rewrite Z.add_0_r, page_slice by lia.
      rewrite Nat2Z.id. reflexivity.
  - intros p Hp. rewrite page_slice by lia.
    apply page_length; [lia|lia|]. apply Hinside. exact Hp.
Qed.

Lemma pages_partition_the_list_witness :
  exists view,
    init (seq 0 60) 25 = Some view /\
    concat ((fun p => current_users (get_embed (set_current_page p view)))
              <$> seqZ 0 (total_pages view)) = seq 0 60 /\
    forall p, 0 <= p < total_pages view ->
      (0 < length (current_users (get_embed (set_current_page p view)))
       <= Z.to_nat 25)%nat.
Proof.
  apply (pages_partition_the_list (seq 0 60) 25). lia.
Defined.

Lemma update_buttons_on_a_page {A} (users : list A) (per_page total : Z)
    (self : TimesView.t A) (page : Z) :
  on_a_page users per_page total self ->
  0 <= page < total ->
  exists self',
    update_buttons (set_current_page page self) = Some self' /\
    current_page self' = page /\
    on_a_page users per_page total self'.
Proof.
  intros (Hu & Hm & Ht & Hc & previous & next & go_to & Hch & _ & _) Hpage.
  unfold update_buttons.
  cbn [children set_current_page current_page total_pages].
  rewrite Hch. eexists. split; [reflexivity|]. split; [reflexivity|].
  unfold on_a_page.
  cbn [set_children set_current_page sorted_users max_per_page total_pages
       current_page children].
  repeat (split; [assumption || lia|]).
  do 3 eexists. split; [reflexivity|]. rewrite Ht. split; intros H.
  - apply Z.eqb_eq in H. exact H.
  - apply Z.leb_le in H. lia.
Qed.

Lemma press_on_a_page {A} (users : list A) (per_page total : Z)
    (p : Press) (shown : Embed A) (self : TimesView.t A) :
  on_a_page users per_page total self ->
  shown = get_embed self ->
  exists self',
    press p shown self = Some (get_embed self', self') /\
    on_a_page users per_page total self'.
Proof.
  intros Hinv Hshown.
  pose proof Hinv as (Hu & Hm & Ht & Hc & _).
  assert (set_current_page (current_page self) self = self) as Hsame
    by (destruct self; reflexivity).
  destruct p as [| |[page|]]; cbn [press].
  - unfold previous_page.
    destruct (update_buttons_on_a_page users per_page total self
                (if 0 <? current_page self then current_page self - 1
                 else current_page self) Hinv) as (self' & Hup & _ & Hinv').
    { destruct (Z.ltb_spec 0 (current_page self)); lia. }
    destruct (0 <? current_page self); [|rewrite Hsame in Hup];
      rewrite Hup; eauto.
  - unfold next_page. rewrite Ht.
    destruct (update_buttons_on_a_page users per_page total self
                (if current_page self <? total - 1 then current_page self + 1
                 else current_page self) Hinv) as (self' & Hup & _ & Hinv').
    { destruct (Z.ltb_spec (current_page self) (total - 1)); lia. }
    destruct (current_page self <? total - 1); [|rewrite Hsame in Hup];
      rewrite Hup; eauto.
  - unfold on_submit. rewrite Ht.
    destruct (Z.leb_spec 1 page), (Z.leb_spec page total); cbn [andb];
      try (subst shown; eauto; fail).
    destruct (update_buttons_on_a_page users per_page total self (page - 1)
                Hinv ltac:(lia)) as (self' & Hup & _ & Hinv').
    rewrite Hup. eauto.
  - subst shown. eauto.
Qed.

(** X23. On the view [ver_tiempos] opens for a list longer than a page,
    no sequence of button presses and page numbers, valid or not, raises
    or leaves the pages: the embed on screen is the one of the current
    page, that page exists and shows somebody, and a disabled button is
    one that would not move. *)
Theorem navigation_stays_on_a_page {A} (users : list A) (per_page : Z)
    (ps : list Press) :
  0 < per_page -> per_page < Z.of_nat (length users) ->
  exists view shown view',
    init users per_page = Some view /\
    presses ps (get_embed view) view = Some (shown, view') /\
    shown = get_embed view' /\
    sorted_users view' = users /\
    total_pages view' = total_pages view /\
    0 <= current_page view' < total_pages view' /\
    current_users shown <> [] /\
    (children view' !! 0%nat = Some true -> current_page view' = 0) /\
    (children view' !! 1%nat = Some true ->
     current_page view' = total_pages view' - 1).
Proof.
  intros Hm Hmany.
  destruct (pages_cover (Z.of_nat (length users)) per_page Hm ltac:(lia))
    as (_ & _ & Hinside & Htwo).
  cbn zeta in Hinside, Htwo. specialize (Htwo Hmany).
  set (total := (Z.of_nat (length users) + per_page - 1) / per_page) in *.
  assert (exists view,
            init users per_page = Some view /\ total_pages view = total /\
            on_a_page users per_page total view) as (view & Hinit & Ht & Hinv).
  { unfold init. rewrite (proj2 (Z.eqb_neq per_page 0)) by lia.
    fold total. rewrite (proj2 (Z.leb_gt total 1)) by lia.
    eexists. split; [reflexivity|]. split; [reflexivity|].
    unfold on_a_page. cbn. repeat (split; [reflexivity || lia|]).
    do 3 eexists. split; [reflexivity|]. split; discriminate. }
  exists view.
  assert (forall shown self,
            on_a_page users per_page total self -> shown = get_embed self ->
            exists self',
              presses ps shown self = Some (get_embed self', self') /\
              on_a_page users per_page total self') as Hrun.
  { induction ps as [|p ps IH]; intros shown self Hself Hshown.
    - subst shown. exists self. split; [reflexivity|exact Hself].
    - destruct (press_on_a_page users per_page total p shown self Hself Hshown)
        as (self1 & Hpress & Hself1).
      cbn [presses]. rewrite Hpress. apply IH; [exact Hself1|reflexivity]. }
  destruct (Hrun (get_embed view) view Hinv eq_refl) as (view' & Hps & Hinv').
  exists (get_embed view'), view'.
  destruct Hinv' as (Hu & Hmp & Ht' & Hc & previous & next & go_to & Hch &
                     Hprev & Hnext).
  rewrite Ht, !Ht'. repeat (split; [assumption || reflexivity|]).
  split; [|rewrite Hch; cbn; split; intros [= ->]; auto].
  unfold get_embed. cbn [current_users]. rewrite Hu, Hmp.
  rewrite page_slice by lia.
  pose proof (page_length users (current_page view') per_page
                ltac:(lia) Hm (Hinside _ Hc)) as Hlen.
  intros Hnil. rewrite Hnil in Hlen. cbn in Hlen. lia.
Qed.

Lemma navigation_stays_on_a_page_witness :
  exists view shown view',
    init (seq 0 60) 25 = Some view /\
    presses [Next; Next; Next; GoTo (Some 7); Previous]
            (get_embed view) view = Some (shown, view') /\
    shown = get_embed view' /\
    sorted_users view' = seq 0 60 /\
    total_pages view' = total_pages view /\
    0 <= current_page view' < total_pages view' /\
    current_users shown <> [] /\
    (children view' !! 0%nat = Some true -> current_page view' = 0) /\
    (children view' !! 1%nat = Some true ->
     current_page view' = total_pages view' - 1).
Proof.
  apply (navigation_stays_on_a_page (seq 0 60) 25
           [Next; Next; Next; GoTo (Some 7); Previous]).
  - lia.
  - vm_compute. reflexivity.
Defined.

End Paging.
